(** * The pipeline coordinator of script-gen

    A shallow embedding of [pipeline_coordinator.py]: the class
    [PipelineCoordinator] with its methods [run_agent],
    [find_latest_output_file], [validate_inputs], [run_complete_pipeline]
    and [generate_pipeline_report].

    The methods talk to the operating system (files, the clock, child
    processes) and print to the terminal.  They are written in a small
    state-and-exception monad [M] over an abstract operating-system state:
    a computation takes the current state and yields an outcome (a value or
    a raised exception), the next state and the events it emitted (lines
    printed, child processes spawned, files copied).  [print] is taken to
    succeed always, and [KeyboardInterrupt] is outside the model.  The
    constructor [__init__] is not modelled: a coordinator is the record of
    the four fields it sets. *)

From Stdlib Require Import ZArith List String Ascii Bool Lia DecimalString.
Import ListNotations.

Set Warnings "-register-all".

Local Open Scope list_scope.
Local Open Scope string_scope.

(** ** Python strings *)

Module PyStr.

Definition nl : string := String (ascii_of_nat 10) EmptyString.

(** [s.startswith(p)] *)
Definition startswith (s p : string) : bool := String.prefix p s.

(** [s.endswith(p)] *)
Definition endswith (s p : string) : bool :=
  let n := String.length s in
  let k := String.length p in
  if Nat.leb k n then String.eqb (String.substring (n - k) k s) p else false.

(** [s.endswith((p1, ..., pn))] *)
Definition endswith_any (s : string) (ps : list string) : bool :=
  existsb (endswith s) ps.

Definition lower_ascii (c : ascii) : ascii :=
  let n := nat_of_ascii c in
  if Nat.leb 65 n && Nat.leb n 90 then ascii_of_nat (n + 32) else c.

(** [s.lower()], on the ASCII letters. *)
Fixpoint lower (s : string) : string :=
  match s with
  | EmptyString => EmptyString
  | String c r => String (lower_ascii c) (lower r)
  end.

(** [sep.join(l)] *)
Definition join (sep : string) (l : list string) : string := String.concat sep l.

(** [c * n] for a one-character string [c] *)
Fixpoint repeat (c : string) (n : nat) : string :=
  match n with
  | O => EmptyString
  | S k => c ++ repeat c k
  end.

(** [str(z)] for an [int] *)
Definition of_int (z : Z) : string := NilZero.string_of_int (Z.to_int z).

(** [os.path.join(a, b)] on a POSIX system *)
Definition path_join (a b : string) : string :=
  if startswith b "/" then b
  else if String.eqb a "" || endswith a "/" then a ++ b
  else a ++ "/" ++ b.

End PyStr.

(** ** Exceptions and outcomes *)

(** The handlers of the source tell [subprocess.TimeoutExpired] from every
    other [Exception]; [str(e)] is the message. *)
Inductive Exn : Type :=
| TimeoutExpired (msg : string)
| PyError (cls msg : string).

Definition exn_str (e : Exn) : string :=
  match e with
  | TimeoutExpired m => m
  | PyError _ m => m
  end.

Inductive Outcome (A : Type) : Type :=
| Ret (a : A)
| Raise (e : Exn).
Arguments Ret {A} a.
Arguments Raise {A} e.

(** ** The Python runtime and the platform *)

(** Python's [float], kept abstract: subtraction, [<], [str], the format
    [.2f], truth value and conversion from [int] ([None] is
    [OverflowError]); and [repr] of a [str]. *)
Class PyRuntime (T : Type) : Type := {
  float_sub : T -> T -> T;
  float_lt : T -> T -> bool;
  float_str : T -> string;
  float_format_2f : T -> string;
  float_truthy : T -> bool;
  float_of_int : Z -> option T;
  str_repr : string -> string
}.

(** What [subprocess.run(cmd, capture_output=True, text=True, timeout=t)]
    gives: a [CompletedProcess], or an exception ([TimeoutExpired] when the
    child has not exited within [t] seconds, another one when the child
    cannot be launched). *)
Record CompletedProcess : Type := {
  returncode : Z;
  stdout : string;
  stderr : string
}.

(** The operating system, as the coordinator sees it. *)
Class Platform (T OS : Type) : Type := {
  plat_executable : string;                                   (* sys.executable *)
  plat_exists : string -> OS -> bool;                         (* os.path.exists *)
  plat_listdir : OS -> Outcome (list string);                 (* os.listdir('.') *)
  plat_getmtime : string -> OS -> Outcome T;                  (* os.path.getmtime *)
  plat_time : OS -> T;                                        (* time.time *)
  plat_run : list string -> Z -> OS -> Outcome CompletedProcess * OS;
                                                              (* subprocess.run *)
  plat_copy : string -> string -> OS -> Outcome unit * OS     (* shutil.copy *)
}.

(** ** Events and the monad *)

Inductive Event : Type :=
| EvPrint (line : string)
| EvSpawn (cmd : list string) (timeout : Z)
| EvCopy (src dst : string).

Definition is_spawn (e : Event) : bool :=
  match e with EvSpawn _ _ => true | _ => false end.

(** The child processes launched, in order. *)
Definition spawns (t : list Event) : list Event := filter is_spawn t.

(** A child, if this is a launch, was given the timeout 600. *)
Definition timeout_is_600 (e : Event) : Prop :=
  match e with
  | EvSpawn _ t => t = 600%Z
  | _ => True
  end.

Section Monad.
Context {OS : Type}.

Definition M (A : Type) : Type := OS -> Outcome A * OS * list Event.

Definition ret {A} (a : A) : M A := fun os => (Ret a, os, []).

Definition raise {A} (e : Exn) : M A := fun os => (Raise e, os, []).

Definition bind {A B} (m : M A) (f : A -> M B) : M B :=
  fun os =>
    match m os with
    | (Ret a, os1, t1) =>
        match f a os1 with
        | (r, os2, t2) => (r, os2, (t1 ++ t2)%list)
        end
    | (Raise e, os1, t1) => (Raise e, os1, t1)
    end.

(** [try: m except Exception as e: h e] *)
Definition try_except {A} (m : M A) (h : Exn -> M A) : M A :=
  fun os =>
    match m os with
    | (Ret a, os1, t1) => (Ret a, os1, t1)
    | (Raise e, os1, t1) =>
        match h e os1 with
        | (r, os2, t2) => (r, os2, (t1 ++ t2)%list)
        end
    end.

Definition lift {A} (o : Outcome A) : M A := fun os => (o, os, []).

Definition print (line : string) : M unit := fun os => (Ret tt, os, [EvPrint line]).

(** [for x in l: acc = body x acc] *)
Fixpoint for_each {A B} (l : list A) (acc : B) (body : A -> B -> M B) : M B :=
  match l with
  | [] => ret acc
  | x :: r => bind (body x acc) (fun acc' => for_each r acc' body)
  end.

(** [[f x for x in l]], left to right *)
Fixpoint map_m {A B} (f : A -> M B) (l : list A) : M (list B) :=
  match l with
  | [] => ret []
  | x :: r => bind (f x) (fun y => bind (map_m f r) (fun ys => ret (y :: ys)))
  end.

(** Computations that neither read nor change the state and emit
    nothing. *)
Definition is_pure {A} (m : M A) : Prop :=
  exists r, forall os, m os = (r, os, []).

Definition value_of {A} (r : Outcome A * OS * list Event) : Outcome A := fst (fst r).
Definition trace_of {A} (r : Outcome A * OS * list Event) : list Event := snd r.

End Monad.

Declare Scope monad_scope.
Delimit Scope monad_scope with monad.
Notation "x <- m ;; k" := (bind m (fun x => k))
  (at level 61, m at next level, right associativity) : monad_scope.
Notation "m ;; k" := (bind m (fun _ => k))
  (at level 61, right associativity) : monad_scope.
Local Open Scope monad_scope.

(** ** Python values and dictionaries *)

Section Values.
Context {T : Type}.

Inductive PyVal : Type :=
| VNone
| VBool (b : bool)
| VInt (n : Z)
| VFloat (x : T)
| VStr (s : string)
| VList (xs : list PyVal)
| VDict (kvs : list (string * PyVal)).

(** A [dict] with [str] keys, in insertion order. *)
Definition PyDict : Type := list (string * PyVal).

(** [d.get(k)] *)
Fixpoint dict_get (d : PyDict) (k : string) : option PyVal :=
  match d with
  | [] => None
  | (k', v) :: r => if String.eqb k' k then Some v else dict_get r k
  end.

(** [d.get(k, dflt)] *)
Definition dict_get_default (d : PyDict) (k : string) (dflt : PyVal) : PyVal :=
  match dict_get d k with
  | Some v => v
  | None => dflt
  end.

(** [k in d] *)
Definition dict_mem (d : PyDict) (k : string) : bool :=
  match dict_get d k with
  | Some _ => true
  | None => false
  end.

(** [d[k] = v]: a key already present keeps its place. *)
Fixpoint dict_set (d : PyDict) (k : string) (v : PyVal) : PyDict :=
  match d with
  | [] => [(k, v)]
  | (k', v') :: r =>
      if String.eqb k' k then (k', v) :: r else (k', v') :: dict_set r k v
  end.

(** [d.update(e)] *)
Definition dict_update (d e : PyDict) : PyDict :=
  fold_left (fun acc kv => dict_set acc (fst kv) (snd kv)) e d.

Definition dict_keys (d : PyDict) : list string := map fst d.

Definition type_name (v : PyVal) : string :=
  match v with
  | VNone => "NoneType"
  | VBool _ => "bool"
  | VInt _ => "int"
  | VFloat _ => "float"
  | VStr _ => "str"
  | VList _ => "list"
  | VDict _ => "dict"
  end.

Context {RT : PyRuntime T}.

(** The truth value of [v] in [if v] and [not v]. *)
Definition truthy (v : PyVal) : bool :=
  match v with
  | VNone => false
  | VBool b => b
  | VInt n => negb (Z.eqb n 0)
  | VFloat x => float_truthy x
  | VStr s => negb (String.eqb s "")
  | VList xs => match xs with [] => false | _ => true end
  | VDict kvs => match kvs with [] => false | _ => true end
  end.

(** The truth value of [d.get(k)]. *)
Definition get_truthy (d : PyDict) (k : string) : bool :=
  match dict_get d k with
  | Some v => truthy v
  | None => false
  end.

(** [repr(v)] *)
Fixpoint py_repr (v : PyVal) : string :=
  match v with
  | VNone => "None"
  | VBool b => if b then "True" else "False"
  | VInt n => PyStr.of_int n
  | VFloat x => float_str x
  | VStr s => str_repr s
  | VList xs => "[" ++ PyStr.join ", " (map py_repr xs) ++ "]"
  | VDict kvs =>
      "{" ++ PyStr.join ", "
               (map (fun kv => match kv with
                               | (k, w) => str_repr k ++ ": " ++ py_repr w
                               end) kvs) ++ "}"
  end.

(** [str(v)], which an f-string applies to [{v}] *)
Definition py_str (v : PyVal) : string :=
  match v with
  | VStr s => s
  | _ => py_repr v
  end.

Definition int_format_2f (n : Z) : Outcome string :=
  match float_of_int n with
  | Some x => Ret (float_format_2f x)
  | None => Raise (PyError "OverflowError" "int too large to convert to float")
  end.

(** [format(v, '.2f')], which an f-string applies to [{v:.2f}] *)
Definition py_format_2f (v : PyVal) : Outcome string :=
  match v with
  | VFloat x => Ret (float_format_2f x)
  | VInt n => int_format_2f n
  | VBool b => int_format_2f (if b then 1 else 0)
  | VStr _ =>
      Raise (PyError "ValueError" "Unknown format code 'f' for object of type 'str'")
  | _ =>
      Raise (PyError "TypeError"
               ("unsupported format string passed to " ++ type_name v ++ ".__format__"))
  end.

End Values.
Arguments PyVal T : clear implicits.
Arguments PyDict T : clear implicits.

(** ** The coordinator *)

(** The fields [__init__] sets. *)
Record PipelineCoordinator : Type := {
  openai_api_key : string;
  competitor_data_path : string;
  pipeline_id : string;
  results_dir : string
}.

Section Coordinator.
Context {T OS : Type} {RT : PyRuntime T} {PF : Platform T OS}.

Local Abbreviation M := (@M OS).
Local Abbreviation PyVal := (PyVal T).
Local Abbreviation PyDict := (PyDict T).

(** *** Library calls *)

Definition os_path_exists (p : string) : M bool :=
  fun os => (Ret (plat_exists p os), os, []).

Definition os_listdir : M (list string) :=
  fun os => (plat_listdir os, os, []).

Definition os_path_getmtime (f : string) : M T :=
  fun os => (plat_getmtime f os, os, []).

Definition time_time : M T :=
  fun os => (Ret (plat_time os), os, []).

Definition subprocess_run (cmd : list string) (timeout : Z) : M CompletedProcess :=
  fun os =>
    match plat_run cmd timeout os with
    | (r, os') => (r, os', [EvSpawn cmd timeout])
    end.

Definition shutil_copy (src dst : string) : M unit :=
  fun os =>
    match plat_copy src dst os with
    | (r, os') => (r, os', [EvCopy src dst])
    end.

(** [l.append(x)] *)
Definition list_append {A} (l : list A) (x : A) : list A := (l ++ [x])%list.

(** An [Optional[str]] under [if not o]: [None] and the empty string are
    false. *)
Definition if_truthy (o : option string) : option string :=
  match o with
  | Some "" => None
  | _ => o
  end.

(** [d[k]] *)
Definition getitem (d : PyDict) (k : string) : M PyVal :=
  match dict_get d k with
  | Some v => ret v
  | None => raise (PyError "KeyError" (str_repr k))
  end.

(** [d[k1][k2] = v] *)
Definition setitem_in (d : PyDict) (k1 k2 : string) (v : PyVal) : M PyDict :=
  inner <- getitem d k1 ;;
  match inner with
  | VDict s => ret (dict_set d k1 (VDict (dict_set s k2 v)))
  | _ =>
      raise (PyError "TypeError"
               ("'" ++ type_name inner ++ "' object does not support item assignment"))
  end.

(** [l.sort(key=..., reverse=True)] on elements paired with their keys:
    descending, and stable (equal keys keep their order).  Python's sort
    and this insertion sort give the same list whenever [<] is a strict
    weak order on the keys, as it is on timestamps. *)
Fixpoint insert_desc {A} (x : A * T) (l : list (A * T)) : list (A * T) :=
  match l with
  | [] => [x]
  | y :: r => if float_lt (snd x) (snd y) then y :: insert_desc x r else x :: y :: r
  end.

Definition sort_desc {A} (l : list (A * T)) : list (A * T) :=
  fold_right insert_desc [] l.

(** *** [run_agent] *)

Definition run_agent (agent_script : string) (args : list string) (stage_name : string)
  : M PyDict :=
  print (PyStr.nl ++ PyStr.repeat "=" 60) ;;
  print ("RUNNING " ++ stage_name) ;;
  print (PyStr.repeat "=" 60) ;;
  try_except
    (let cmd := ([plat_executable; agent_script] ++ args)%list in
     print ("Command: " ++ PyStr.join " " cmd) ;;
     start_time <- time_time ;;
     result <- subprocess_run cmd 600 ;;
     end_time <- time_time ;;
     if negb (Z.eqb (returncode result) 0) then
       ret [("success", VBool false);
            ("error", VStr ("Agent failed with return code "
                            ++ PyStr.of_int (returncode result)));
            ("stdout", VStr (stdout result));
            ("stderr", VStr (stderr result));
            ("duration", VFloat (float_sub end_time start_time))]
     else
       ret [("success", VBool true);
            ("stdout", VStr (stdout result));
            ("stderr", VStr (stderr result));
            ("duration", VFloat (float_sub end_time start_time));
            ("stage", VStr stage_name)])
    (fun e =>
       match e with
       | TimeoutExpired _ =>
           ret [("success", VBool false);
                ("error", VStr "Agent timed out after 10 minutes");
                ("stage", VStr stage_name)]
       | _ =>
           ret [("success", VBool false);
                ("error", VStr ("Failed to run agent: " ++ exn_str e));
                ("stage", VStr stage_name)]
       end).

(** *** [find_latest_output_file] *)

Definition matches (pattern : string) (f : string) : bool :=
  PyStr.startswith f pattern && PyStr.endswith f ".json".

Definition find_latest_output_file (pattern : string) : M (option string) :=
  try_except
    (names <- os_listdir ;;
     let files := filter (matches pattern) names in
     match files with
     | [] => ret None
     | _ =>
         keys <- map_m os_path_getmtime files ;;
         let files := map fst (sort_desc (combine files keys)) in
         ret (hd_error files)
     end)
    (fun e =>
       print ("Error finding output file: " ++ exn_str e) ;;
       ret None).

(** *** [validate_inputs] *)

Definition required_agents : list string :=
  ["agent_1_comic_processor.py";
   "agent_2_script_editor.py";
   "agent_3_final_integrator.py"].

Definition validate_inputs (self : PipelineCoordinator) (cbr_path : string) : M PyDict :=
  let issues : list string := [] in
  cbr_exists <- os_path_exists cbr_path ;;
  let issues :=
    if negb cbr_exists then
      list_append issues ("CBR file not found: " ++ cbr_path)
    else if negb (PyStr.endswith_any (PyStr.lower cbr_path) [".cbr"; ".cbz"; ".zip"]) then
      list_append issues ("Invalid file type. Expected .cbr, .cbz, or .zip: " ++ cbr_path)
    else issues in
  data_exists <- os_path_exists (competitor_data_path self) ;;
  let issues :=
    if negb data_exists then
      list_append issues ("Competitor data file not found: " ++ competitor_data_path self)
    else if negb (PyStr.endswith (PyStr.lower (competitor_data_path self)) ".csv") then
      list_append issues ("Invalid competitor data format. Expected .csv: "
                  ++ competitor_data_path self)
    else issues in
  issues <- for_each required_agents issues
              (fun agent issues =>
                 agent_exists <- os_path_exists agent ;;
                 if negb agent_exists then
                   ret (list_append issues ("Agent script not found: " ++ agent))
                 else ret issues) ;;
  let issues :=
    if negb (PyStr.startswith (openai_api_key self) "sk-") then
      list_append issues ("Invalid OpenAI API key format")
    else issues in
  ret [("valid", VBool (Nat.eqb (List.length issues) 0));
       ("issues", VList (map VStr issues))].

(** *** [run_complete_pipeline] *)

Definition run_complete_pipeline (self : PipelineCoordinator) (cbr_path : string)
    (target_duration : Z) : M PyDict :=
  pipeline_start <- time_time ;;
  print ("🚀 Starting Comic-to-YouTube Pipeline: " ++ pipeline_id self) ;;
  print ("📁 Results will be saved to: " ++ results_dir self) ;;
  validation <- validate_inputs self cbr_path ;;
  valid <- getitem validation "valid" ;;
  if negb (truthy valid) then
    issues <- getitem validation "issues" ;;
    ret [("success", VBool false);
         ("error", VStr "Input validation failed");
         ("issues", issues)]
  else
  print "✅ Input validation passed" ;;
  let pipeline_results : PyDict :=
    [("pipeline_id", VStr (pipeline_id self));
     ("start_time", VFloat pipeline_start);
     ("cbr_file", VStr cbr_path);
     ("target_duration", VInt target_duration);
     ("stages", VDict [])] in
  (* Stage 1 *)
  stage_1_result <- run_agent "agent_1_comic_processor.py"
                      [cbr_path; openai_api_key self; PyStr.of_int target_duration]
                      "AGENT 1: Comic Processor & Script Creator" ;;
  pipeline_results <- setitem_in pipeline_results "stages" "agent_1" (VDict stage_1_result) ;;
  ok <- getitem stage_1_result "success" ;;
  if negb (truthy ok) then
    let pipeline_results := dict_set pipeline_results "success" (VBool false) in
    let pipeline_results := dict_set pipeline_results "failed_at" (VStr "Agent 1") in
    ret pipeline_results
  else
  agent_1_output <- find_latest_output_file "agent_1_output_" ;;
  match if_truthy agent_1_output with
  | None =>
    let pipeline_results := dict_set pipeline_results "success" (VBool false) in
    let pipeline_results :=
      dict_set pipeline_results "error" (VStr "Could not find Agent 1 output file") in
    ret pipeline_results
  | Some agent_1_output =>
  print ("✅ Agent 1 completed successfully. Output: " ++ agent_1_output) ;;
  (* Stage 2 *)
  stage_2_result <- run_agent "agent_2_script_editor.py"
                      [agent_1_output; competitor_data_path self; openai_api_key self]
                      "AGENT 2: Script Editor & Competitive Analyst" ;;
  pipeline_results <- setitem_in pipeline_results "stages" "agent_2" (VDict stage_2_result) ;;
  ok <- getitem stage_2_result "success" ;;
  if negb (truthy ok) then
    let pipeline_results := dict_set pipeline_results "success" (VBool false) in
    let pipeline_results := dict_set pipeline_results "failed_at" (VStr "Agent 2") in
    ret pipeline_results
  else
  agent_2_output <- find_latest_output_file "agent_2_output_" ;;
  match if_truthy agent_2_output with
  | None =>
    let pipeline_results := dict_set pipeline_results "success" (VBool false) in
    let pipeline_results :=
      dict_set pipeline_results "error" (VStr "Could not find Agent 2 output file") in
    ret pipeline_results
  | Some agent_2_output =>
  print ("✅ Agent 2 completed successfully. Output: " ++ agent_2_output) ;;
  (* Stage 3 *)
  stage_3_result <- run_agent "agent_3_final_integrator.py"
                      [agent_2_output; openai_api_key self; PyStr.of_int target_duration]
                      "AGENT 3: Final Integration Specialist" ;;
  pipeline_results <- setitem_in pipeline_results "stages" "agent_3" (VDict stage_3_result) ;;
  ok <- getitem stage_3_result "success" ;;
  if negb (truthy ok) then
    let pipeline_results := dict_set pipeline_results "success" (VBool false) in
    let pipeline_results := dict_set pipeline_results "failed_at" (VStr "Agent 3") in
    ret pipeline_results
  else
  final_output <- find_latest_output_file "final_output_" ;;
  match if_truthy final_output with
  | None =>
    let pipeline_results := dict_set pipeline_results "success" (VBool false) in
    let pipeline_results :=
      dict_set pipeline_results "error" (VStr "Could not find final output file") in
    ret pipeline_results
  | Some final_output =>
  print ("✅ Agent 3 completed successfully. Output: " ++ final_output) ;;
  (* Copy results to results directory *)
  try_except
    (shutil_copy agent_1_output (PyStr.path_join (results_dir self) "agent_1_output.json") ;;
     shutil_copy agent_2_output (PyStr.path_join (results_dir self) "agent_2_output.json") ;;
     shutil_copy final_output (PyStr.path_join (results_dir self) "final_output.json"))
    (fun e =>
       print ("Warning: Could not copy results to results directory: " ++ exn_str e)) ;;
  pipeline_end <- time_time ;;
  let total_duration := float_sub pipeline_end pipeline_start in
  let pipeline_results :=
    dict_update pipeline_results
      [("success", VBool true);
       ("end_time", VFloat pipeline_end);
       ("total_duration", VFloat total_duration);
       ("final_output_file", VStr final_output);
       ("results_directory", VStr (results_dir self))] in
  ret pipeline_results
  end end end.

(** *** [generate_pipeline_report] *)

(** [v.items()]: [AttributeError] unless [v] is a [dict]. *)
Definition items (v : PyVal) : M (list (string * PyVal)) :=
  match v with
  | VDict kvs => ret kvs
  | _ =>
      raise (PyError "AttributeError"
               ("'" ++ type_name v ++ "' object has no attribute 'items'"))
  end.

(** The receiver of [v.get(...)]: [AttributeError] unless [v] is a [dict]. *)
Definition get_receiver (v : PyVal) : M PyDict :=
  match v with
  | VDict kvs => ret kvs
  | _ =>
      raise (PyError "AttributeError"
               ("'" ++ type_name v ++ "' object has no attribute 'get'"))
  end.

Definition generate_pipeline_report (pipeline_results : PyDict) : M string :=
  total <- lift (py_format_2f (dict_get_default pipeline_results "total_duration" (VInt 0))) ;;
  let report :=
    PyStr.nl
    ++ PyStr.repeat "=" 80 ++ PyStr.nl
    ++ "COMIC-TO-YOUTUBE SCRIPT PIPELINE REPORT" ++ PyStr.nl
    ++ PyStr.repeat "=" 80 ++ PyStr.nl
    ++ PyStr.nl
    ++ "Pipeline ID: "
    ++ py_str (dict_get_default pipeline_results "pipeline_id" (VStr "Unknown")) ++ PyStr.nl
    ++ "Source CBR: "
    ++ py_str (dict_get_default pipeline_results "cbr_file" (VStr "Unknown")) ++ PyStr.nl
    ++ "Target Duration: "
    ++ py_str (dict_get_default pipeline_results "target_duration" (VStr "Unknown"))
    ++ " seconds" ++ PyStr.nl
    ++ PyStr.nl
    ++ "EXECUTION SUMMARY:" ++ PyStr.nl
    ++ "Status: "
    ++ (if get_truthy pipeline_results "success" then "SUCCESS" else "FAILED") ++ PyStr.nl
    ++ "Total Duration: " ++ total ++ " seconds" ++ PyStr.nl in
  report <-
    (if negb (get_truthy pipeline_results "success") then
       let report :=
         report ++ "Failed At: "
         ++ py_str (dict_get_default pipeline_results "failed_at" (VStr "Unknown"))
         ++ PyStr.nl in
       if dict_mem pipeline_results "error" then
         err <- getitem pipeline_results "error" ;;
         ret (report ++ "Error: " ++ py_str err ++ PyStr.nl)
       else ret report
     else ret report) ;;
  let report := report ++ PyStr.nl ++ "STAGE BREAKDOWN:" ++ PyStr.nl in
  stages <- items (dict_get_default pipeline_results "stages" (VDict [])) ;;
  report <-
    for_each stages report
      (fun item report =>
         let stage_name := fst item in
         stage_data <- get_receiver (snd item) ;;
         let status := if get_truthy stage_data "success" then "SUCCESS" else "FAILED" in
         let duration := dict_get_default stage_data "duration" (VInt 0) in
         shown <- lift (py_format_2f duration) ;;
         let report :=
           report ++ "  " ++ stage_name ++ ": " ++ status ++ " (" ++ shown ++ "s)"
           ++ PyStr.nl in
         if negb (get_truthy stage_data "success") && dict_mem stage_data "error" then
           err <- getitem stage_data "error" ;;
           ret (report ++ "    Error: " ++ py_str err ++ PyStr.nl)
         else ret report) ;;
  let report :=
    if get_truthy pipeline_results "success" then
      report
      ++ PyStr.nl ++ "FINAL OUTPUT: "
      ++ py_str (dict_get_default pipeline_results "final_output_file" (VStr "Not found"))
      ++ PyStr.nl
      ++ "RESULTS SAVED TO: "
      ++ py_str (dict_get_default pipeline_results "results_directory" (VStr "Not saved"))
      ++ PyStr.nl
    else report in
  ret (report ++ PyStr.nl ++ PyStr.repeat "=" 80).

End Coordinator.

(** ** A simulated platform

    Used to run the coordinator on concrete scenarios: time in whole
    seconds, a working directory listed in a fixed order, and a queue of
    child-process behaviours consumed by successive [subprocess.run]
    calls. *)

Module Sim.

#[export] Instance runtime : PyRuntime Z := {
  float_sub := Z.sub;
  float_lt := Z.ltb;
  float_str := fun z => PyStr.of_int z ++ ".0";
  float_format_2f := fun z => PyStr.of_int z ++ ".00";
  float_truthy := fun z => negb (Z.eqb z 0);
  float_of_int := fun z => Some z;
  str_repr := fun s => "'" ++ s ++ "'"
}.

(** What one child process does: how long it takes, what
    [subprocess.run] reports, and the files it leaves in the working
    directory. *)
Record Child : Type := {
  child_elapsed : Z;
  child_result : Outcome CompletedProcess;
  child_writes : list string
}.

Record State : Type := {
  now : Z;
  cwd : list (string * Z);       (* names and mtimes, in [os.listdir] order *)
  elsewhere : list string;       (* other paths that exist *)
  children : list Child;
  copy_works : bool
}.

Definition lookup (f : string) (l : list (string * Z)) : option Z :=
  option_map snd (find (fun e => String.eqb (fst e) f) l).

Definition exists_ (p : string) (s : State) : bool :=
  existsb (String.eqb p) (map fst (cwd s)) || existsb (String.eqb p) (elsewhere s).

Definition getmtime (f : string) (s : State) : Outcome Z :=
  match lookup f (cwd s) with
  | Some t => Ret t
  | None => Raise (PyError "FileNotFoundError" ("No such file or directory: " ++ f))
  end.

Definition run (cmd : list string) (timeout : Z) (s : State)
  : Outcome CompletedProcess * State :=
  match children s with
  | [] => (Raise (PyError "FileNotFoundError" "No such file or directory"), s)
  | c :: rest =>
      let t := (now s + child_elapsed c)%Z in
      (child_result c,
       {| now := t;
          cwd := (cwd s ++ map (fun f => (f, t)) (child_writes c))%list;
          elsewhere := elsewhere s;
          children := rest;
          copy_works := copy_works s |})
  end.

Definition copy (src dst : string) (s : State) : Outcome unit * State :=
  if copy_works s then
    (Ret tt,
     {| now := now s; cwd := cwd s; elsewhere := (elsewhere s ++ [dst])%list;
        children := children s; copy_works := true |})
  else (Raise (PyError "PermissionError" ("Permission denied: " ++ dst)), s).

#[export] Instance platform : Platform Z State := {
  plat_executable := "python3";
  plat_exists := exists_;
  plat_listdir := fun s => Ret (map fst (cwd s));
  plat_getmtime := getmtime;
  plat_time := now;
  plat_run := run;
  plat_copy := copy
}.

Definition coordinator : PipelineCoordinator := {|
  openai_api_key := "sk-test";
  competitor_data_path := "competitors.csv";
  pipeline_id := "pipeline_1700000000";
  results_dir := "results_pipeline_1700000000"
|}.

Definition exits (rc : Z) (out err : string) : Outcome CompletedProcess :=
  Ret {| returncode := rc; stdout := out; stderr := err |}.

(** A working directory with the inputs and the three stage programs. *)
Definition ready (cs : list Child) (copying : bool) : State := {|
  now := 1700000000;
  cwd := [("agent_1_comic_processor.py", 1%Z); ("agent_2_script_editor.py", 1%Z);
          ("agent_3_final_integrator.py", 1%Z); ("comic.cbz", 2%Z);
          ("competitors.csv", 3%Z)];
  elsewhere := [];
  children := cs;
  copy_works := copying
|}.

Definition stage1_ok : Child :=
  {| child_elapsed := 12; child_result := exits 0 "script written" "";
     child_writes := ["agent_1_output_comic.json"] |}.
Definition stage2_ok : Child :=
  {| child_elapsed := 7; child_result := exits 0 "review written" "";
     child_writes := ["agent_2_output_comic.json"] |}.
Definition stage3_ok : Child :=
  {| child_elapsed := 9; child_result := exits 0 "final written" "";
     child_writes := ["final_output_comic.json"] |}.
Definition silent : Child :=
  {| child_elapsed := 7; child_result := exits 0 "nothing to do" "";
     child_writes := [] |}.
Definition stage_hangs : Child :=
  {| child_elapsed := 600;
     child_result := Raise (TimeoutExpired "Command timed out after 600 seconds");
     child_writes := [] |}.
(** The state once the next child has run (the command line does not
    matter to [run]). *)
Definition step (s : State) : State := snd (run [] 600 s).

(** A working directory holding just the listed files. *)
Definition listing (l : list (string * Z)) : State := {|
  now := 100;
  cwd := l;
  elsewhere := [];
  children := [];
  copy_works := true
|}.

Definition mtime_in (l : list (string * Z)) (f : string) : Z :=
  match lookup f l with
  | Some t => t
  | None => 0%Z
  end.

(** Two directories with the same two files, equally old, listed in
    opposite orders. *)
Definition tie_ba : list (string * Z) := [("out_b.json", 5%Z); ("out_a.json", 5%Z)].
Definition tie_ab : list (string * Z) := [("out_a.json", 5%Z); ("out_b.json", 5%Z)].

(** A directory with an old output, two newest outputs of equal age, and
    two newer files that do not match. *)
Definition outputs : list (string * Z) :=
  [("out_old.json", 5%Z); ("out_new.json", 9%Z); ("notes.txt", 12%Z);
   ("out_tie.json", 9%Z); ("out_new.json.bak", 20%Z)].

(** The three stages all succeed. *)
Definition run3 : list Child := [stage1_ok; stage2_ok; stage3_ok].

End Sim.

(** ** Vocabulary of the statements *)

Section Vocabulary.
Context {T OS : Type} {RT : PyRuntime T} {PF : Platform T OS}.

Local Abbreviation PyVal := (PyVal T).
Local Abbreviation PyDict := (PyDict T).

(** The command line [run_agent] builds. *)
Definition agent_cmd (agent_script : string) (args : list string) : list string :=
  plat_executable :: agent_script :: args.

(** What [run_agent] emits, whatever the child does. *)
Definition agent_events (agent_script : string) (args : list string) (stage_name : string)
  : list Event :=
  [EvPrint (PyStr.nl ++ PyStr.repeat "=" 60);
   EvPrint ("RUNNING " ++ stage_name);
   EvPrint (PyStr.repeat "=" 60);
   EvPrint ("Command: " ++ PyStr.join " " (agent_cmd agent_script args));
   EvSpawn (agent_cmd agent_script args) 600].

(** The command lines of the three stages. *)
Definition cmd1 (self : PipelineCoordinator) (cbr_path : string) (target_duration : Z) :=
  agent_cmd "agent_1_comic_processor.py"
    [cbr_path; openai_api_key self; PyStr.of_int target_duration].
Definition cmd2 (self : PipelineCoordinator) (agent_1_output : string) :=
  agent_cmd "agent_2_script_editor.py"
    [agent_1_output; competitor_data_path self; openai_api_key self].
Definition cmd3 (self : PipelineCoordinator) (agent_2_output : string) (target_duration : Z) :=
  agent_cmd "agent_3_final_integrator.py"
    [agent_2_output; openai_api_key self; PyStr.of_int target_duration].

Definition stage_keys : list string := ["agent_1"; "agent_2"; "agent_3"].

(** [pipeline_results.get('stages', {})], as the report reads it. *)
Definition stage_results (d : PyDict) : PyDict :=
  match dict_get d "stages" with
  | Some (VDict s) => s
  | _ => []
  end.

(** The validator accepts the inputs in state [os]. *)
Definition inputs_valid (self : PipelineCoordinator) (cbr_path : string) (os : OS) : Prop :=
  exists v, value_of (validate_inputs self cbr_path os) = Ret v
            /\ dict_get v "valid" = Some (VBool true).

(** The child launched with [cmd] from state [os] exits with code 0 and
    leaves the system in state [os']. *)
Definition exits_zero (cmd : list string) (os os' : OS) : Prop :=
  exists cp, plat_run cmd 600 os = (Ret cp, os') /\ returncode cp = 0%Z.

(** The locator's answer for [pattern] in state [os]. *)
Definition located (pattern : string) (os : OS) (f : string) : Prop :=
  value_of (find_latest_output_file pattern os) = Ret (Some f).
Definition missing (pattern : string) (os : OS) : Prop :=
  value_of (find_latest_output_file pattern os) = Ret None.

(** Stage [k] has been run and its child has exited with code 0: the
    inputs were valid, every earlier stage exited with code 0 and its
    artifact was located and handed on. *)
Definition stage1_done (self : PipelineCoordinator) (cbr_path : string)
    (target_duration : Z) (os os1 : OS) : Prop :=
  inputs_valid self cbr_path os
  /\ exits_zero (cmd1 self cbr_path target_duration) os os1.

Definition stage2_done (self : PipelineCoordinator) (cbr_path : string)
    (target_duration : Z) (os : OS) (f1 : string) (os2 : OS) : Prop :=
  exists os1,
    stage1_done self cbr_path target_duration os os1
    /\ located "agent_1_output_" os1 f1
    /\ exits_zero (cmd2 self f1) os1 os2.

Definition stage3_done (self : PipelineCoordinator) (cbr_path : string)
    (target_duration : Z) (os : OS) (f1 f2 : string) (os3 : OS) : Prop :=
  exists os2,
    stage2_done self cbr_path target_duration os f1 os2
    /\ located "agent_2_output_" os2 f2
    /\ exits_zero (cmd3 self f2 target_duration) os2 os3.

(** The four checks of the validator, each with the issues it reports. *)
Definition source_issues (cbr_path : string) (os : OS) : list string :=
  if negb (plat_exists cbr_path os) then ["CBR file not found: " ++ cbr_path]
  else if negb (PyStr.endswith_any (PyStr.lower cbr_path) [".cbr"; ".cbz"; ".zip"]) then
    ["Invalid file type. Expected .cbr, .cbz, or .zip: " ++ cbr_path]
  else [].

Definition competitor_issues (self : PipelineCoordinator) (os : OS) : list string :=
  if negb (plat_exists (competitor_data_path self) os) then
    ["Competitor data file not found: " ++ competitor_data_path self]
  else if negb (PyStr.endswith (PyStr.lower (competitor_data_path self)) ".csv") then
    ["Invalid competitor data format. Expected .csv: " ++ competitor_data_path self]
  else [].

Definition agent_issues (os : OS) : list string :=
  flat_map (fun agent =>
              if negb (plat_exists agent os) then ["Agent script not found: " ++ agent]
              else [])
           required_agents.

Definition credential_issues (self : PipelineCoordinator) : list string :=
  if negb (PyStr.startswith (openai_api_key self) "sk-") then
    ["Invalid OpenAI API key format"]
  else [].

Definition all_issues (self : PipelineCoordinator) (cbr_path : string) (os : OS)
  : list string :=
  (source_issues cbr_path os ++ competitor_issues self os
   ++ agent_issues os ++ credential_issues self)%list.

(** Whether each check passes. *)
Definition source_ok (cbr_path : string) (os : OS) : bool :=
  plat_exists cbr_path os
  && PyStr.endswith_any (PyStr.lower cbr_path) [".cbr"; ".cbz"; ".zip"].

Definition competitor_ok (self : PipelineCoordinator) (os : OS) : bool :=
  plat_exists (competitor_data_path self) os
  && PyStr.endswith (PyStr.lower (competitor_data_path self)) ".csv".

Definition credential_ok (self : PipelineCoordinator) : bool :=
  PyStr.startswith (openai_api_key self) "sk-".

Definition missing_agents (os : OS) : list string :=
  filter (fun agent => negb (plat_exists agent os)) required_agents.

(** One call of [run_agent] from [os]: it returns the StageResult [r],
    whose [success] is [b], and leaves the system in [os']; [b] is true
    exactly when the child exited with code 0. *)
Definition attempt (agent_script : string) (args : list string) (stage_name : string)
    (os : OS) (r : PyDict) (b : bool) (os' : OS) : Prop :=
  run_agent agent_script args stage_name os
    = (Ret r, os', agent_events agent_script args stage_name)
  /\ dict_get r "success" = Some (VBool b)
  /\ (b = true <-> exits_zero (agent_cmd agent_script args) os os').

Definition attempt1 (self : PipelineCoordinator) (cbr_path : string) (target_duration : Z) :=
  attempt "agent_1_comic_processor.py"
    [cbr_path; openai_api_key self; PyStr.of_int target_duration]
    "AGENT 1: Comic Processor & Script Creator".
Definition attempt2 (self : PipelineCoordinator) (agent_1_output : string) :=
  attempt "agent_2_script_editor.py"
    [agent_1_output; competitor_data_path self; openai_api_key self]
    "AGENT 2: Script Editor & Competitive Analyst".
Definition attempt3 (self : PipelineCoordinator) (agent_2_output : string)
    (target_duration : Z) :=
  attempt "agent_3_final_integrator.py"
    [agent_2_output; openai_api_key self; PyStr.of_int target_duration]
    "AGENT 3: Final Integration Specialist".

(** The dictionaries [run_complete_pipeline] returns. *)
Definition results_invalid (issues : list string) : PyDict :=
  [("success", VBool false);
   ("error", VStr "Input validation failed");
   ("issues", VList (map VStr issues))].

Definition results_base (self : PipelineCoordinator) (cbr_path : string)
    (target_duration : Z) (start : T) (stages : PyDict) : PyDict :=
  [("pipeline_id", VStr (pipeline_id self));
   ("start_time", VFloat start);
   ("cbr_file", VStr cbr_path);
   ("target_duration", VInt target_duration);
   ("stages", VDict stages)].

Definition results_failed (self : PipelineCoordinator) (cbr_path : string)
    (target_duration : Z) (start : T) (stages : PyDict) (failed_at : string) : PyDict :=
  (results_base self cbr_path target_duration start stages
   ++ [("success", VBool false); ("failed_at", VStr failed_at)])%list.

Definition results_missing (self : PipelineCoordinator) (cbr_path : string)
    (target_duration : Z) (start : T) (stages : PyDict) (error : string) : PyDict :=
  (results_base self cbr_path target_duration start stages
   ++ [("success", VBool false); ("error", VStr error)])%list.

Definition results_succeeded (self : PipelineCoordinator) (cbr_path : string)
    (target_duration : Z) (start : T) (stages : PyDict) (finish : T)
    (final_output : string) : PyDict :=
  (results_base self cbr_path target_duration start stages
   ++ [("success", VBool true);
       ("end_time", VFloat finish);
       ("total_duration", VFloat (float_sub finish start));
       ("final_output_file", VStr final_output);
       ("results_directory", VStr (results_dir self))])%list.

Definition spawn1 (self : PipelineCoordinator) (cbr_path : string) (target_duration : Z) :=
  EvSpawn (cmd1 self cbr_path target_duration) 600.
Definition spawn2 (self : PipelineCoordinator) (agent_1_output : string) :=
  EvSpawn (cmd2 self agent_1_output) 600.
Definition spawn3 (self : PipelineCoordinator) (agent_2_output : string)
    (target_duration : Z) :=
  EvSpawn (cmd3 self agent_2_output target_duration) 600.

(** The eight ways a run of [run_complete_pipeline] from [os] can go, each
    with the result, the final state and the events. *)
Inductive RunCase (self : PipelineCoordinator) (cbr_path : string) (td : Z) (os : OS)
  : Outcome PyDict * OS * list Event -> Prop :=
| case_invalid tr :
    all_issues self cbr_path os <> [] ->
    spawns tr = [] ->
    RunCase self cbr_path td os
      (Ret (results_invalid (all_issues self cbr_path os)), os, tr)
| case_failed1 r1 os1 tr :
    inputs_valid self cbr_path os ->
    attempt1 self cbr_path td os r1 false os1 ->
    spawns tr = [spawn1 self cbr_path td] ->
    RunCase self cbr_path td os
      (Ret (results_failed self cbr_path td (plat_time os)
              [("agent_1", VDict r1)] "Agent 1"), os1, tr)
| case_missing1 r1 os1 tr :
    inputs_valid self cbr_path os ->
    attempt1 self cbr_path td os r1 true os1 ->
    missing "agent_1_output_" os1 ->
    spawns tr = [spawn1 self cbr_path td] ->
    RunCase self cbr_path td os
      (Ret (results_missing self cbr_path td (plat_time os)
              [("agent_1", VDict r1)] "Could not find Agent 1 output file"), os1, tr)
| case_failed2 r1 os1 f1 r2 os2 tr :
    inputs_valid self cbr_path os ->
    attempt1 self cbr_path td os r1 true os1 ->
    located "agent_1_output_" os1 f1 ->
    attempt2 self f1 os1 r2 false os2 ->
    spawns tr = [spawn1 self cbr_path td; spawn2 self f1] ->
    RunCase self cbr_path td os
      (Ret (results_failed self cbr_path td (plat_time os)
              [("agent_1", VDict r1); ("agent_2", VDict r2)] "Agent 2"), os2, tr)
| case_missing2 r1 os1 f1 r2 os2 tr :
    inputs_valid self cbr_path os ->
    attempt1 self cbr_path td os r1 true os1 ->
    located "agent_1_output_" os1 f1 ->
    attempt2 self f1 os1 r2 true os2 ->
    missing "agent_2_output_" os2 ->
    spawns tr = [spawn1 self cbr_path td; spawn2 self f1] ->
    RunCase self cbr_path td os
      (Ret (results_missing self cbr_path td (plat_time os)
              [("agent_1", VDict r1); ("agent_2", VDict r2)]
              "Could not find Agent 2 output file"), os2, tr)
| case_failed3 r1 os1 f1 r2 os2 f2 r3 os3 tr :
    inputs_valid self cbr_path os ->
    attempt1 self cbr_path td os r1 true os1 ->
    located "agent_1_output_" os1 f1 ->
    attempt2 self f1 os1 r2 true os2 ->
    located "agent_2_output_" os2 f2 ->
    attempt3 self f2 td os2 r3 false os3 ->
    spawns tr = [spawn1 self cbr_path td; spawn2 self f1; spawn3 self f2 td] ->
    RunCase self cbr_path td os
      (Ret (results_failed self cbr_path td (plat_time os)
              [("agent_1", VDict r1); ("agent_2", VDict r2); ("agent_3", VDict r3)]
              "Agent 3"), os3, tr)
| case_missing3 r1 os1 f1 r2 os2 f2 r3 os3 tr :
    inputs_valid self cbr_path os ->
    attempt1 self cbr_path td os r1 true os1 ->
    located "agent_1_output_" os1 f1 ->
    attempt2 self f1 os1 r2 true os2 ->
    located "agent_2_output_" os2 f2 ->
    attempt3 self f2 td os2 r3 true os3 ->
    missing "final_output_" os3 ->
    spawns tr = [spawn1 self cbr_path td; spawn2 self f1; spawn3 self f2 td] ->
    RunCase self cbr_path td os
      (Ret (results_missing self cbr_path td (plat_time os)
              [("agent_1", VDict r1); ("agent_2", VDict r2); ("agent_3", VDict r3)]
              "Could not find final output file"), os3, tr)
| case_succeeded r1 os1 f1 r2 os2 f2 r3 os3 f3 os4 tr :
    inputs_valid self cbr_path os ->
    attempt1 self cbr_path td os r1 true os1 ->
    located "agent_1_output_" os1 f1 ->
    attempt2 self f1 os1 r2 true os2 ->
    located "agent_2_output_" os2 f2 ->
    attempt3 self f2 td os2 r3 true os3 ->
    located "final_output_" os3 f3 ->
    spawns tr = [spawn1 self cbr_path td; spawn2 self f1; spawn3 self f2 td] ->
    RunCase self cbr_path td os
      (Ret (results_succeeded self cbr_path td (plat_time os)
              [("agent_1", VDict r1); ("agent_2", VDict r2); ("agent_3", VDict r3)]
              (plat_time os4) f3), os4, tr).

(** Stage [k] has exited with code 0 and left the system in [os'], where
    the locator finds no artifact of that stage. *)
Definition stage_lost (self : PipelineCoordinator) (cbr_path : string)
    (target_duration : Z) (os : OS) (k : nat) (os' : OS) : Prop :=
  match k with
  | 1 => stage1_done self cbr_path target_duration os os'
         /\ missing "agent_1_output_" os'
  | 2 => exists f1, stage2_done self cbr_path target_duration os f1 os'
                    /\ missing "agent_2_output_" os'
  | 3 => exists f1 f2, stage3_done self cbr_path target_duration os f1 f2 os'
                       /\ missing "final_output_" os'
  | _ => False
  end.

Definition missing_errors : list string :=
  ["Could not find Agent 1 output file";
   "Could not find Agent 2 output file";
   "Could not find final output file"].

Definition failed_labels : list string := ["Agent 1"; "Agent 2"; "Agent 3"].

End Vocabulary.

(** ** The constructor and the command line

    [__init__] and [main] need four more library calls: [int] on a
    [float] and on a [str], [os.makedirs(p, exist_ok=True)] and writing a
    text file ([with open(p, 'w') as f: f.write(s)]).  Writing a file and
    creating a directory change the state; they are not logged as
    events. *)

Class PlatformExt (T OS : Type) : Type := {
  float_int : T -> Outcome Z;                                  (* int(x) *)
  str_int : string -> Outcome Z;                               (* int(s) *)
  plat_makedirs : string -> OS -> Outcome unit * OS;           (* os.makedirs *)
  plat_write : string -> string -> OS -> Outcome unit * OS     (* open + write *)
}.

Section EntryPoint.
Context {T OS : Type} {RT : PyRuntime T} {PF : Platform T OS} {PX : PlatformExt T OS}.

Local Abbreviation M := (@M OS).

Definition os_makedirs (p : string) : M unit :=
  fun os =>
    match plat_makedirs p os with
    | (r, os') => (r, os', [])
    end.

Definition write_file (p text : string) : M unit :=
  fun os =>
    match plat_write p text os with
    | (r, os') => (r, os', [])
    end.

(** [PipelineCoordinator(openai_api_key, competitor_data_path)] *)
Definition init (openai_api_key competitor_data_path : string) : M PipelineCoordinator :=
  now <- time_time ;;
  stamp <- lift (float_int now) ;;
  let pipeline_id := "pipeline_" ++ PyStr.of_int stamp in
  let results_dir := "results_" ++ pipeline_id in
  os_makedirs results_dir ;;
  ret {| openai_api_key := openai_api_key;
         competitor_data_path := competitor_data_path;
         pipeline_id := pipeline_id;
         results_dir := results_dir |}.

(** [main()], with [sys.argv] as argument.  The value is the status the
    process exits with through [sys.exit]; [SystemExit] is no [Exception],
    so the handler of [main] lets it through.  An exception [main] raises
    ends the process with a traceback. *)
Definition main (argv : list string) : M Z :=
  if Nat.ltb (List.length argv) 4 then
    print "Usage: python pipeline_coordinator.py <cbr_file> <competitor_data.csv> <openai_api_key> [target_duration]" ;;
    print "Example: python pipeline_coordinator.py comic.cbr competitor_data.csv sk-... 75" ;;
    ret 1%Z
  else
  let cbr_file := nth 1 argv "" in
  let competitor_data := nth 2 argv "" in
  let api_key := nth 3 argv "" in
  target_duration <-
    (if Nat.ltb 4 (List.length argv) then lift (str_int (nth 4 argv "")) else ret 75%Z) ;;
  coordinator <- init api_key competitor_data ;;
  try_except
    (results <- run_complete_pipeline coordinator cbr_file target_duration ;;
     report <- generate_pipeline_report results ;;
     print report ;;
     let report_file := "pipeline_report_" ++ pipeline_id coordinator ++ ".txt" in
     write_file report_file report ;;
     print (PyStr.nl ++ "📊 Pipeline report saved to: " ++ report_file) ;;
     ret (if get_truthy results "success" then 0%Z else 1%Z))
    (fun e =>
       print (PyStr.nl ++ "❌ Pipeline coordinator error: " ++ exn_str e) ;;
       ret 1%Z).

End EntryPoint.

(** ** The stage programs, as far as the coordinator meets them

    The three stage programs call a language-model service; their bodies
    are kept as parameters.  What is modelled is the name of the file
    stage 1 writes and the argument checks that open [main] of stages 2
    and 3. *)

Section StagePrograms.
Context {OS : Type}.

Local Abbreviation M := (@M OS).

(** [agent_1_comic_processor.py]: the [output_file] of [main], from
    [os.path.basename(cbr_file)] and [int(time.time())]. *)
Definition agent_1_output_file (basename : string) (stamp : Z) : string :=
  "agent_1_output_" ++ basename ++ "_" ++ PyStr.of_int stamp ++ ".md".

(** [agent_2_script_editor.py]: [main], with [sys.argv] as argument and
    everything after the argument check as [body]. *)
Definition agent_2_main (body : list string -> M Z) (argv : list string) : M Z :=
  if Nat.ltb (List.length argv) 5 then
    print "Usage: python agent_2_script_editor.py <agent_1_output.json> <competitor_data.csv> <openai_api_key> <output_json_path>" ;;
    print "Example: python agent_2_script_editor.py agent_1.json competitors.csv sk-... /path/to/output/agent_2.json" ;;
    ret 1%Z
  else body argv.

(** [agent_3_final_integrator.py]: [main], likewise. *)
Definition agent_3_main (body : list string -> M Z) (argv : list string) : M Z :=
  if Nat.ltb (List.length argv) 5 then
    print "Usage: python agent_3_final_integrator.py <agent_2_output.json> <openai_api_key> <output_json_path> <output_md_path> [target_duration]" ;;
    print "Example: python agent_3_final_integrator.py agent_2.json sk-... /path/agent_3.json /path/agent_3.md 75" ;;
    ret 1%Z
  else body argv.

(** [sys.argv] of a child launched with the command line [cmd]: the
    interpreter is dropped. *)
Definition argv_of (cmd : list string) : list string := tl cmd.

End StagePrograms.

(** ** The simulated platform, continued *)

Module SimExt.

Definition digit (c : ascii) : option Z :=
  let n := nat_of_ascii c in
  if Nat.leb 48 n && Nat.leb n 57 then Some (Z.of_nat (n - 48)) else None.

Fixpoint digits (s : string) (acc : Z) : option Z :=
  match s with
  | EmptyString => Some acc
  | String c r =>
      match digit c with
      | Some d => digits r (10 * acc + d)%Z
      | None => None
      end
  end.

(** Unsigned decimal numbers only. *)
Definition parse (s : string) : Outcome Z :=
  match s with
  | EmptyString => Raise (PyError "ValueError" "invalid literal for int()")
  | _ =>
      match digits s 0 with
      | Some z => Ret z
      | None => Raise (PyError "ValueError" "invalid literal for int()")
      end
  end.

(** Directories can be created; files can be written unless the disk is
    read-only, which is the case when copying fails. *)
Definition makedirs (p : string) (s : Sim.State) : Outcome unit * Sim.State :=
  (Ret tt,
   {| Sim.now := Sim.now s; Sim.cwd := Sim.cwd s;
      Sim.elsewhere := (Sim.elsewhere s ++ [p])%list;
      Sim.children := Sim.children s; Sim.copy_works := Sim.copy_works s |}).

Definition write (p text : string) (s : Sim.State) : Outcome unit * Sim.State :=
  if Sim.copy_works s then
    (Ret tt,
     {| Sim.now := Sim.now s; Sim.cwd := (Sim.cwd s ++ [(p, Sim.now s)])%list;
        Sim.elsewhere := Sim.elsewhere s;
        Sim.children := Sim.children s; Sim.copy_works := true |})
  else (Raise (PyError "PermissionError" ("Permission denied: " ++ p)), s).

#[export] Instance platform_ext : PlatformExt Z Sim.State := {
  float_int := fun z => Ret z;
  str_int := parse;
  plat_makedirs := makedirs;
  plat_write := write
}.

(** A directory where a matching file cannot be read. *)
Definition unreadable : Platform Z Sim.State := {|
  plat_executable := "python3";
  plat_exists := Sim.exists_;
  plat_listdir := fun s => Ret (map fst (Sim.cwd s));
  plat_getmtime := fun f s =>
    if String.eqb f "out_locked.json" then
      Raise (PyError "PermissionError" "Permission denied: out_locked.json")
    else Sim.getmtime f s;
  plat_time := Sim.now;
  plat_run := Sim.run;
  plat_copy := Sim.copy
|}.

Definition locked : list (string * Z) :=
  [("out_a.json", 5%Z); ("out_locked.json", 7%Z); ("out_b.json", 9%Z)].

Definition stage_crashes : Sim.Child :=
  {| Sim.child_elapsed := 3; Sim.child_result := Sim.exits 1 "" "Traceback";
     Sim.child_writes := [] |}.

(** Stage 2 exits with code 1. *)
Definition crash2 : Sim.State :=
  Sim.ready [Sim.stage1_ok; stage_crashes; Sim.stage3_ok] true.

(** Stage 2 exits with code 0 and writes nothing. *)
Definition lost2 : Sim.State :=
  Sim.ready [Sim.stage1_ok; Sim.silent; Sim.stage3_ok] true.

(** A command line without a target duration. *)
Definition argv4 : list string :=
  ["pipeline_coordinator.py"; "comic.cbz"; "competitors.csv"; "sk-test"].

(** The state once the results directory has been created. *)
Definition built (s : Sim.State) : Sim.State :=
  snd (makedirs "results_pipeline_1700000000" s).

End SimExt.

(** ** Vocabulary of the further statements *)

Definition is_copy (e : Event) : bool :=
  match e with EvCopy _ _ => true | _ => false end.

(** The files copied, or tried, in order. *)
Definition copies (t : list Event) : list Event := filter is_copy t.

Section Vocabulary2.
Context {T OS : Type} {RT : PyRuntime T} {PF : Platform T OS}.

Local Abbreviation PyVal := (PyVal T).
Local Abbreviation PyDict := (PyDict T).

(** Stage [k] is about to be launched with the command line [cmd] from
    the state [os_k]: the inputs were valid, every earlier stage exited
    with code 0 and its artifact was located and handed on. *)
Definition stage_launch (self : PipelineCoordinator) (cbr_path : string)
    (target_duration : Z) (os : OS) (k : nat) (cmd : list string) (os_k : OS) : Prop :=
  match k with
  | 1 => inputs_valid self cbr_path os
         /\ cmd = cmd1 self cbr_path target_duration /\ os_k = os
  | 2 => exists f1, stage1_done self cbr_path target_duration os os_k
                    /\ located "agent_1_output_" os_k f1
                    /\ cmd = cmd2 self f1
  | 3 => exists f1 f2, stage2_done self cbr_path target_duration os f1 os_k
                       /\ located "agent_2_output_" os_k f2
                       /\ cmd = cmd3 self f2 target_duration
  | _ => False
  end.

(** A launch runs the interpreter on a stage program that the validator
    found present in the state [os]. *)
Definition launch_validated (os : OS) (e : Event) : Prop :=
  match e with
  | EvSpawn cmd _ =>
      exists script args,
        cmd = plat_executable :: script :: args
        /\ In script required_agents
        /\ plat_exists script os = true
  | _ => True
  end.

(** The three copies of the archiving step. *)
Definition archive_copies (self : PipelineCoordinator) (f1 f2 f3 : string) : list Event :=
  [EvCopy f1 (PyStr.path_join (results_dir self) "agent_1_output.json");
   EvCopy f2 (PyStr.path_join (results_dir self) "agent_2_output.json");
   EvCopy f3 (PyStr.path_join (results_dir self) "final_output.json")].

(** [format(v, '.2f')] returns. *)
Definition format_ok (v : PyVal) : bool :=
  match py_format_2f v with
  | Ret _ => true
  | Raise _ => false
  end.

(** What [generate_pipeline_report] needs of its argument: a
    [total_duration] that can be formatted (0 when absent), a [stages]
    that is a dictionary (empty when absent), and in it only dictionaries
    whose [duration] can be formatted (0 when absent). *)
Definition stage_ok (item : string * PyVal) : bool :=
  match snd item with
  | VDict stage_data => format_ok (dict_get_default stage_data "duration" (VInt 0))
  | _ => false
  end.

Definition renderable (pipeline_results : PyDict) : bool :=
  format_ok (dict_get_default pipeline_results "total_duration" (VInt 0))
  && match dict_get_default pipeline_results "stages" (VDict []) with
     | VDict stages => forallb stage_ok stages
     | _ => false
     end.

End Vocabulary2.

Section Vocabulary3.
Context {T OS : Type} {RT : PyRuntime T}.

Local Abbreviation M := (@M OS).
Local Abbreviation PyDict := (PyDict T).

(** The state a computation leaves. *)
Definition state_after {A} (r : Outcome A * OS * list Event) : OS := snd (fst r).

(** The value a computation returns, [dflt] when it raises. *)
Definition result_of {A} (r : Outcome A * OS * list Event) (dflt : A) : A :=
  match value_of r with
  | Ret a => a
  | Raise _ => dflt
  end.

(** Computations that copy nothing. *)
Definition copy_free {A} (m : M A) : Prop :=
  forall os, copies (trace_of (m os)) = [].

(** Computations that copy only when they return a successful result. *)
Definition copies_only_on_success (m : M PyDict) : Prop :=
  forall os,
    copies (trace_of (m os)) = []
    \/ exists d, value_of (m os) = Ret d /\ get_truthy d "success" = true.

End Vocabulary3.

(** ** Properties *)

Section MonadFacts.
Context {OS : Type}.

Local Abbreviation M := (@M OS).

Lemma spawns_app (t1 t2 : list Event) :
  spawns (t1 ++ t2) = (spawns t1 ++ spawns t2)%list.
Proof. unfold spawns. apply filter_app. Qed.

Lemma pure_ret {A} (a : A) : is_pure (OS := OS) (ret a).
Proof. exists (Ret a). reflexivity. Qed.

Lemma pure_raise {A} e : is_pure (@raise OS A e).
Proof. exists (Raise e). reflexivity. Qed.

Lemma pure_lift {A} (o : Outcome A) : is_pure (OS := OS) (lift o).
Proof. exists o. reflexivity. Qed.

Lemma pure_bind {A B} (m : M A) (f : A -> M B) :
  is_pure m -> (forall a, is_pure (f a)) -> is_pure (bind m f).
Proof.
  intros [r Hm] Hf. destruct r as [a|e].
  - destruct (Hf a) as [r' Hr']. exists r'. intros os.
    unfold bind. rewrite Hm, Hr'. reflexivity.
  - exists (Raise e). intros os. unfold bind. rewrite Hm. reflexivity.
Qed.

Lemma pure_for_each {A B} (l : list A) (body : A -> B -> M B) :
  (forall x acc, is_pure (body x acc)) ->
  forall acc, is_pure (for_each l acc body).
Proof.
  intros Hb. induction l as [|x l IH]; intros acc; simpl.
  - apply pure_ret.
  - apply pure_bind; auto.
Qed.

End MonadFacts.

Section Facts.
Context {T OS : Type} {RT : PyRuntime T} {PF : Platform T OS}.

Local Abbreviation PyVal := (PyVal T).
Local Abbreviation PyDict := (PyDict T).

(** *** The stage executor *)

Lemma run_agent_completed script args name os cp os' :
  plat_run (agent_cmd script args) 600 os = (Ret cp, os') ->
  run_agent script args name os =
    (Ret (if negb (Z.eqb (returncode cp) 0) then
            [("success", VBool false);
             ("error", VStr ("Agent failed with return code "
                             ++ PyStr.of_int (returncode cp)));
             ("stdout", VStr (stdout cp));
             ("stderr", VStr (stderr cp));
             ("duration", VFloat (float_sub (plat_time os') (plat_time os)))]
          else
            [("success", VBool true);
             ("stdout", VStr (stdout cp));
             ("stderr", VStr (stderr cp));
             ("duration", VFloat (float_sub (plat_time os') (plat_time os)));
             ("stage", VStr name)]),
     os', agent_events script args name).
Proof.
  intros E. unfold agent_cmd in E.
  unfold run_agent, agent_events, agent_cmd, bind, try_except, print, time_time,
    subprocess_run, ret. simpl.
  rewrite E.
  destruct (negb (returncode cp =? 0)%Z); reflexivity.
Qed.

Lemma run_agent_raised script args name os e os' :
  plat_run (agent_cmd script args) 600 os = (Raise e, os') ->
  run_agent script args name os =
    (Ret [("success", VBool false);
          ("error", VStr (match e with
                          | TimeoutExpired _ => "Agent timed out after 10 minutes"
                          | _ => "Failed to run agent: " ++ exn_str e
                          end));
          ("stage", VStr name)],
     os', agent_events script args name).
Proof.
  intros E. unfold agent_cmd in E.
  unfold run_agent, agent_events, agent_cmd, bind, try_except, print, time_time,
    subprocess_run, ret. simpl.
  rewrite E.
  destruct e; reflexivity.
Qed.

Lemma run_agent_total script args name os :
  exists r b,
    run_agent script args name os =
      (Ret r, snd (plat_run (agent_cmd script args) 600 os), agent_events script args name)
    /\ dict_get r "success" = Some (VBool b)
    /\ (b = true <->
        exists cp, fst (plat_run (agent_cmd script args) 600 os) = Ret cp
                   /\ returncode cp = 0%Z).
Proof.
  destruct (plat_run (agent_cmd script args) 600 os) as [[cp|e] os'] eqn:E.
  - rewrite (run_agent_completed _ _ name _ _ _ E). simpl.
    destruct (Z.eqb_spec (returncode cp) 0) as [Hz|Hz]; simpl.
    + eexists; exists true. repeat split; eauto.
    + eexists; exists false. repeat split; try discriminate.
      intros [cp' [Hcp Hrc]]. inversion Hcp; subst. contradiction.
  - rewrite (run_agent_raised _ _ name _ _ _ E). simpl.
    eexists; exists false. repeat split; try discriminate.
    intros [cp' [Hcp _]]. discriminate.
Qed.

(** *** The artifact locator *)

Lemma map_m_getmtime files (os : OS) :
  exists r, map_m os_path_getmtime files os = (r, os, []).
Proof.
  induction files as [|f files [r IH]].
  - eexists; reflexivity.
  - simpl. unfold bind, os_path_getmtime at 1.
    destruct (plat_getmtime f os) as [t|e].
    + rewrite IH. destruct r as [ts|e]; eexists; reflexivity.
    + eexists; reflexivity.
Qed.

Lemma find_latest_total pattern (os : OS) :
  exists o tr,
    find_latest_output_file pattern os = (Ret o, os, tr) /\ spawns tr = [].
Proof.
  unfold find_latest_output_file, try_except, bind, os_listdir.
  destruct (plat_listdir os) as [names|e].
  - destruct (filter (matches pattern) names) as [|f files].
    + do 2 eexists; split; reflexivity.
    + destruct (map_m_getmtime (f :: files) os) as [r Hr]. rewrite Hr.
      destruct r as [keys|e]; do 2 eexists; split; reflexivity.
  - do 2 eexists; split; reflexivity.
Qed.

(** *** The validator *)

Lemma validate_loop (os : OS) (agents : list string) (issues : list string) :
  for_each agents issues
    (fun agent issues =>
       bind (os_path_exists agent)
         (fun agent_exists =>
            if negb agent_exists then
              ret (list_append issues ("Agent script not found: " ++ agent))
            else ret issues)) os
  = (Ret (app issues
            (flat_map (fun agent =>
                         if negb (plat_exists agent os) then
                           ["Agent script not found: " ++ agent]
                         else []) agents)), os, []).
Proof.
  revert issues. induction agents as [|a agents IH]; intros issues; simpl.
  - rewrite app_nil_r. reflexivity.
  - unfold bind at 1. unfold bind at 1. unfold os_path_exists at 1.
    destruct (plat_exists a os); simpl.
    + rewrite IH. reflexivity.
    + rewrite IH. unfold list_append. rewrite <- app_assoc. reflexivity.
Qed.

Lemma validate_inputs_eq self cbr_path (os : OS) :
  validate_inputs self cbr_path os =
    (Ret [("valid", VBool (Nat.eqb (List.length (all_issues self cbr_path os)) 0));
          ("issues", VList (map VStr (all_issues self cbr_path os)))],
     os, []).
Proof.
  unfold validate_inputs.
  unfold bind at 1. unfold os_path_exists at 1.
  unfold bind at 1. unfold os_path_exists at 1.
  unfold bind at 1. rewrite validate_loop.
  unfold ret, all_issues, source_issues, competitor_issues, credential_issues,
    agent_issues, list_append.
  destruct (negb (plat_exists cbr_path os));
    [|destruct (negb (PyStr.endswith_any _ _))];
    (destruct (negb (plat_exists (competitor_data_path self) os));
     [|destruct (negb (PyStr.endswith _ _))]);
    destruct (negb (PyStr.startswith _ _));
    simpl app; rewrite ?app_nil_r, <- ?app_assoc; reflexivity.
Qed.

(** *** Stepping through a computation *)

Lemma bind_run {A B} (m : @M OS A) (f : A -> M B) os a os1 t1 r os2 t2 :
  m os = (Ret a, os1, t1) ->
  f a os1 = (r, os2, t2) ->
  bind m f os = (r, os2, (t1 ++ t2)%list).
Proof. intros E1 E2. unfold bind. rewrite E1, E2. reflexivity. Qed.

Lemma getitem_run (d : PyDict) k v (os : OS) :
  dict_get d k = Some v -> getitem d k os = (Ret v, os, []).
Proof. intros E. unfold getitem. rewrite E. reflexivity. Qed.

Ltac run_prim :=
  first
    [ eassumption
    | apply validate_inputs_eq
    | apply getitem_run; first [ eassumption | reflexivity ]
    | reflexivity ].

Ltac run_step :=
  lazymatch goal with
  | |- bind _ _ _ = _ => eapply bind_run; [ run_prim | cbv beta ]
  | |- ret _ _ = _ => reflexivity
  end.

Ltac spawns_solve :=
  repeat rewrite spawns_app;
  repeat match goal with
         | H : spawns _ = [] |- _ => rewrite H
         end;
  reflexivity.

(** *** Stage attempts and located artifacts *)

Lemma attempt_total script args name (os : OS) :
  exists r b,
    attempt script args name os r b (snd (plat_run (agent_cmd script args) 600 os)).
Proof.
  destruct (run_agent_total script args name os) as [r [b [E [Hs Hb]]]].
  exists r, b. split; [exact E|]. split; [exact Hs|].
  rewrite Hb. unfold exits_zero.
  destruct (plat_run (agent_cmd script args) 600 os) as [o os'] eqn:Er. simpl.
  split; intros [cp [H1 H2]]; exists cp; split; auto; congruence.
Qed.

Lemma exits_zero_attempt script args name (os os' : OS) :
  exits_zero (agent_cmd script args) os os' ->
  exists r, attempt script args name os r true os'.
Proof.
  intros Hz. destruct (attempt_total script args name os) as [r [b A]].
  assert (Hos : snd (plat_run (agent_cmd script args) 600 os) = os').
  { destruct Hz as [cp [E _]]. rewrite E. reflexivity. }
  rewrite Hos in A. exists r.
  destruct A as [E [Hs Hb]]. destruct b.
  - repeat split; auto.
  - destruct Hb as [_ Hb]. discriminate (Hb Hz).
Qed.

Lemma In_insert_desc {A} (x a : A * T) l :
  In x (insert_desc a l) <-> x = a \/ In x l.
Proof.
  induction l as [|y l IH]; simpl.
  - intuition auto.
  - destruct (float_lt (snd a) (snd y)); simpl; rewrite ?IH; intuition auto.
Qed.

Lemma In_sort_desc {A} (x : A * T) l : In x (sort_desc l) <-> In x l.
Proof.
  induction l as [|a l IH]; simpl; [tauto|].
  rewrite In_insert_desc, IH. intuition auto.
Qed.

Lemma find_latest_matches pattern (os : OS) f :
  located pattern os f ->
  matches pattern f = true
  /\ exists names, plat_listdir os = Ret names /\ In f names.
Proof.
  unfold located, find_latest_output_file, try_except, bind, os_listdir, value_of.
  destruct (plat_listdir os) as [names|e]; [|simpl; discriminate].
  destruct (filter (matches pattern) names) as [|f0 files] eqn:Ef; [simpl; discriminate|].
  destruct (map_m_getmtime (f0 :: files) os) as [r Hr]. rewrite Hr.
  destruct r as [keys|e]; [|simpl; discriminate].
  cbn [fst snd ret].
  remember (map fst (sort_desc (combine (f0 :: files) keys))) as sorted eqn:Es.
  intros H. injection H as H1.
  assert (Hin : In f sorted).
  { destruct sorted as [|g gs]; simpl in H1; [discriminate|].
    injection H1 as ->. left. reflexivity. }
  rewrite Es in Hin. clear Es H1.
  apply in_map_iff in Hin. destruct Hin as [[f' k] [Hf Hin]]. simpl in Hf. subst f'.
  apply (proj1 (In_sort_desc _ _)) in Hin. apply in_combine_l in Hin.
  rewrite <- Ef in Hin. apply filter_In in Hin. destruct Hin as [Hn Hm].
  split; [exact Hm|]. exists names. split; [reflexivity | exact Hn].
Qed.

Lemma matches_nonempty pattern f :
  pattern <> "" -> matches pattern f = true -> if_truthy (Some f) = Some f.
Proof.
  intros Hp Hm. destruct f as [|c f]; [|reflexivity].
  unfold matches, PyStr.startswith in Hm. apply andb_prop in Hm. destruct Hm as [Hm _].
  destruct pattern; [contradiction | simpl in Hm; discriminate].
Qed.

Lemma located_run pattern (os : OS) f :
  pattern <> "" ->
  located pattern os f ->
  exists tr,
    find_latest_output_file pattern os = (Ret (Some f), os, tr)
    /\ spawns tr = [] /\ if_truthy (Some f) = Some f.
Proof.
  intros Hp Hl. destruct (find_latest_total pattern os) as [o [tr [E Hs]]].
  pose proof Hl as Hl'. unfold located in Hl'. rewrite E in Hl'. simpl in Hl'.
  inversion Hl'; subst. exists tr. repeat split; auto.
  apply (matches_nonempty pattern); auto.
  apply (find_latest_matches pattern os f Hl).
Qed.

Lemma missing_run pattern (os : OS) :
  missing pattern os ->
  exists tr, find_latest_output_file pattern os = (Ret None, os, tr) /\ spawns tr = [].
Proof.
  intros Hm. destruct (find_latest_total pattern os) as [o [tr [E Hs]]].
  unfold missing in Hm. rewrite E in Hm. simpl in Hm.
  inversion Hm; subst. exists tr. split; auto.
Qed.

Lemma located_or_missing pattern (os : OS) :
  missing pattern os \/ exists f, located pattern os f.
Proof.
  destruct (find_latest_total pattern os) as [o [tr [E Hs]]].
  unfold missing, located. rewrite E. simpl.
  destruct o as [f|]; [right; exists f|left]; reflexivity.
Qed.

Lemma inputs_valid_iff self cbr_path (os : OS) :
  inputs_valid self cbr_path os <-> all_issues self cbr_path os = [].
Proof.
  unfold inputs_valid. rewrite validate_inputs_eq. simpl. split.
  - intros [v [Hv Hg]]. inversion Hv; subst. simpl in Hg.
    destruct (all_issues self cbr_path os); [reflexivity | discriminate].
  - intros E. eexists. split; [reflexivity|]. rewrite E. reflexivity.
Qed.

(** The archiving block always completes, whatever [shutil.copy] does. *)
Lemma archive_total self f1 f2 f3 (os : OS) :
  exists os' tr,
    try_except
      (bind (shutil_copy f1 (PyStr.path_join (results_dir self) "agent_1_output.json"))
         (fun _ =>
            bind (shutil_copy f2 (PyStr.path_join (results_dir self) "agent_2_output.json"))
              (fun _ =>
                 shutil_copy f3 (PyStr.path_join (results_dir self) "final_output.json"))))
      (fun e =>
         print ("Warning: Could not copy results to results directory: " ++ exn_str e)) os
    = (Ret tt, os', tr) /\ spawns tr = [].
Proof.
  unfold try_except, bind, shutil_copy, print.
  destruct (plat_copy f1 _ os) as [[[]|e1] os1].
  - destruct (plat_copy f2 _ os1) as [[[]|e2] os2].
    + destruct (plat_copy f3 _ os2) as [[[]|e3] os3]; do 2 eexists; split; reflexivity.
    + do 2 eexists; split; reflexivity.
  - do 2 eexists; split; reflexivity.
Qed.

(** *** The eight paths of [run_complete_pipeline] *)

Ltac run_all :=
  repeat first
    [ run_step
    | match goal with H : all_issues _ _ _ = _ |- _ => rewrite H end
    | match goal with H : if_truthy _ = _ |- _ => rewrite H end
    | progress cbn [negb truthy Nat.eqb List.length if_truthy] ].

Ltac path_setup :=
  repeat match goal with
         | H : inputs_valid _ _ _ |- _ => apply inputs_valid_iff in H
         | H : attempt1 _ _ _ _ _ _ _ |- _ => destruct H as [? [? _]]
         | H : attempt2 _ _ _ _ _ _ |- _ => destruct H as [? [? _]]
         | H : attempt3 _ _ _ _ _ _ _ |- _ => destruct H as [? [? _]]
         | H : located _ _ _ |- _ =>
             apply located_run in H; [destruct H as [? [? [? ?]]] | discriminate]
         | H : missing _ _ |- _ => apply missing_run in H; destruct H as [? [? ?]]
         end.

Ltac path_solve :=
  intros; path_setup; eexists; split;
  [ unfold run_complete_pipeline; run_all | spawns_solve ].

Lemma path_invalid self cbr_path td (os : OS) :
  all_issues self cbr_path os <> [] ->
  exists tr,
    run_complete_pipeline self cbr_path td os
      = (Ret (results_invalid (all_issues self cbr_path os)), os, tr)
    /\ spawns tr = [].
Proof.
  intros Hi. destruct (all_issues self cbr_path os) as [|i0 rest] eqn:Ei; [congruence|].
  eexists; split; [ unfold run_complete_pipeline; run_all | spawns_solve ].
Qed.

Lemma path_failed1 self cbr_path td (os : OS) r1 os1 :
  inputs_valid self cbr_path os ->
  attempt1 self cbr_path td os r1 false os1 ->
  exists tr,
    run_complete_pipeline self cbr_path td os
      = (Ret (results_failed self cbr_path td (plat_time os)
                [("agent_1", VDict r1)] "Agent 1"), os1, tr)
    /\ spawns tr = [spawn1 self cbr_path td].
Proof. path_solve. Qed.

Lemma path_missing1 self cbr_path td (os : OS) r1 os1 :
  inputs_valid self cbr_path os ->
  attempt1 self cbr_path td os r1 true os1 ->
  missing "agent_1_output_" os1 ->
  exists tr,
    run_complete_pipeline self cbr_path td os
      = (Ret (results_missing self cbr_path td (plat_time os)
                [("agent_1", VDict r1)] "Could not find Agent 1 output file"), os1, tr)
    /\ spawns tr = [spawn1 self cbr_path td].
Proof. path_solve. Qed.

Lemma path_failed2 self cbr_path td (os : OS) r1 os1 f1 r2 os2 :
  inputs_valid self cbr_path os ->
  attempt1 self cbr_path td os r1 true os1 ->
  located "agent_1_output_" os1 f1 ->
  attempt2 self f1 os1 r2 false os2 ->
  exists tr,
    run_complete_pipeline self cbr_path td os
      = (Ret (results_failed self cbr_path td (plat_time os)
                [("agent_1", VDict r1); ("agent_2", VDict r2)] "Agent 2"), os2, tr)
    /\ spawns tr = [spawn1 self cbr_path td; spawn2 self f1].
Proof. path_solve. Qed.

Lemma path_missing2 self cbr_path td (os : OS) r1 os1 f1 r2 os2 :
  inputs_valid self cbr_path os ->
  attempt1 self cbr_path td os r1 true os1 ->
  located "agent_1_output_" os1 f1 ->
  attempt2 self f1 os1 r2 true os2 ->
  missing "agent_2_output_" os2 ->
  exists tr,
    run_complete_pipeline self cbr_path td os
      = (Ret (results_missing self cbr_path td (plat_time os)
                [("agent_1", VDict r1); ("agent_2", VDict r2)]
                "Could not find Agent 2 output file"), os2, tr)
    /\ spawns tr = [spawn1 self cbr_path td; spawn2 self f1].
Proof. path_solve. Qed.

Lemma path_failed3 self cbr_path td (os : OS) r1 os1 f1 r2 os2 f2 r3 os3 :
  inputs_valid self cbr_path os ->
  attempt1 self cbr_path td os r1 true os1 ->
  located "agent_1_output_" os1 f1 ->
  attempt2 self f1 os1 r2 true os2 ->
  located "agent_2_output_" os2 f2 ->
  attempt3 self f2 td os2 r3 false os3 ->
  exists tr,
    run_complete_pipeline self cbr_path td os
      = (Ret (results_failed self cbr_path td (plat_time os)
                [("agent_1", VDict r1); ("agent_2", VDict r2); ("agent_3", VDict r3)]
                "Agent 3"), os3, tr)
    /\ spawns tr = [spawn1 self cbr_path td; spawn2 self f1; spawn3 self f2 td].
Proof. path_solve. Qed.

Lemma path_missing3 self cbr_path td (os : OS) r1 os1 f1 r2 os2 f2 r3 os3 :
  inputs_valid self cbr_path os ->
  attempt1 self cbr_path td os r1 true os1 ->
  located "agent_1_output_" os1 f1 ->
  attempt2 self f1 os1 r2 true os2 ->
  located "agent_2_output_" os2 f2 ->
  attempt3 self f2 td os2 r3 true os3 ->
  missing "final_output_" os3 ->
  exists tr,
    run_complete_pipeline self cbr_path td os
      = (Ret (results_missing self cbr_path td (plat_time os)
                [("agent_1", VDict r1); ("agent_2", VDict r2); ("agent_3", VDict r3)]
                "Could not find final output file"), os3, tr)
    /\ spawns tr = [spawn1 self cbr_path td; spawn2 self f1; spawn3 self f2 td].
Proof. path_solve. Qed.

Lemma path_succeeded self cbr_path td (os : OS) r1 os1 f1 r2 os2 f2 r3 os3 f3 :
  inputs_valid self cbr_path os ->
  attempt1 self cbr_path td os r1 true os1 ->
  located "agent_1_output_" os1 f1 ->
  attempt2 self f1 os1 r2 true os2 ->
  located "agent_2_output_" os2 f2 ->
  attempt3 self f2 td os2 r3 true os3 ->
  located "final_output_" os3 f3 ->
  exists os4 tr,
    run_complete_pipeline self cbr_path td os
      = (Ret (results_succeeded self cbr_path td (plat_time os)
                [("agent_1", VDict r1); ("agent_2", VDict r2); ("agent_3", VDict r3)]
                (plat_time os4) f3), os4, tr)
    /\ spawns tr = [spawn1 self cbr_path td; spawn2 self f1; spawn3 self f2 td].
Proof.
  intros. path_setup.
  destruct (archive_total self f1 f2 f3 os3) as [os4 [ta [Ha Hsa]]].
  exists os4. eexists; split;
  [ unfold run_complete_pipeline; run_all | spawns_solve ].
Qed.

Lemma run_cases self cbr_path td (os : OS) :
  RunCase self cbr_path td os (run_complete_pipeline self cbr_path td os).
Proof.
  destruct (all_issues self cbr_path os) as [|i0 rest] eqn:Ei.
  2:{ destruct (path_invalid self cbr_path td os) as [tr [E Hs]]; [congruence|].
      rewrite E. apply case_invalid; [congruence | exact Hs]. }
  apply inputs_valid_iff in Ei.
  destruct (attempt_total "agent_1_comic_processor.py"
              [cbr_path; openai_api_key self; PyStr.of_int td]
              "AGENT 1: Comic Processor & Script Creator" os) as [r1 [b1 A1]].
  fold (attempt1 self cbr_path td) in A1.
  set (os1 := snd (plat_run _ 600 os)) in A1. clearbody os1.
  destruct b1.
  2:{ destruct (path_failed1 _ _ _ _ _ _ Ei A1) as [tr [E Hs]].
      rewrite E. eapply case_failed1; eauto. }
  destruct (located_or_missing "agent_1_output_" os1) as [M1|[f1 L1]].
  { destruct (path_missing1 _ _ _ _ _ _ Ei A1 M1) as [tr [E Hs]].
    rewrite E. eapply case_missing1; eauto. }
  destruct (attempt_total "agent_2_script_editor.py"
              [f1; competitor_data_path self; openai_api_key self]
              "AGENT 2: Script Editor & Competitive Analyst" os1) as [r2 [b2 A2]].
  fold (attempt2 self f1) in A2.
  set (os2 := snd (plat_run _ 600 os1)) in A2. clearbody os2.
  destruct b2.
  2:{ destruct (path_failed2 _ _ _ _ _ _ _ _ _ Ei A1 L1 A2) as [tr [E Hs]].
      rewrite E. eapply case_failed2; eauto. }
  destruct (located_or_missing "agent_2_output_" os2) as [M2|[f2 L2]].
  { destruct (path_missing2 _ _ _ _ _ _ _ _ _ Ei A1 L1 A2 M2) as [tr [E Hs]].
    rewrite E. eapply case_missing2; eauto. }
  destruct (attempt_total "agent_3_final_integrator.py"
              [f2; openai_api_key self; PyStr.of_int td]
              "AGENT 3: Final Integration Specialist" os2) as [r3 [b3 A3]].
  fold (attempt3 self f2 td) in A3.
  set (os3 := snd (plat_run _ 600 os2)) in A3. clearbody os3.
  destruct b3.
  2:{ destruct (path_failed3 _ _ _ _ _ _ _ _ _ _ _ _ Ei A1 L1 A2 L2 A3) as [tr [E Hs]].
      rewrite E. eapply case_failed3; eauto. }
  destruct (located_or_missing "final_output_" os3) as [M3|[f3 L3]].
  { destruct (path_missing3 _ _ _ _ _ _ _ _ _ _ _ _ Ei A1 L1 A2 L2 A3 M3) as [tr [E Hs]].
    rewrite E. eapply case_missing3; eauto. }
  destruct (path_succeeded _ _ _ _ _ _ _ _ _ _ _ _ _ Ei A1 L1 A2 L2 A3 L3)
    as [os4 [tr [E Hs]]].
  rewrite E. eapply case_succeeded; eauto.
Qed.

End Facts.

(** ** The claims about [run_agent], [validate_inputs] and the report *)

Section ExecutorClaims.
Context {T OS : Type} {RT : PyRuntime T} {PF : Platform T OS}.

Local Abbreviation PyVal := (PyVal T).
Local Abbreviation PyDict := (PyDict T).

Lemma timeout_of_spawns (tr : list Event) :
  Forall timeout_is_600 (spawns tr) -> Forall timeout_is_600 tr.
Proof.
  induction tr as [|e tr IH]; intros H; [constructor|].
  destruct e; simpl in H.
  - constructor; [exact I | auto].
  - inversion H; subst. constructor; auto.
  - constructor; [exact I | auto].
Qed.

(** C4: when [subprocess.run] raises [TimeoutExpired] (the child has not
    exited within the timeout), [run_agent] returns a StageResult whose
    [success] is [False] and whose [error] is the timeout message, and the
    child was launched once only: no second attempt. *)
Theorem run_agent_timeout script args name (os os' : OS) msg :
  plat_run (agent_cmd script args) 600 os = (Raise (TimeoutExpired msg), os') ->
  exists tr,
    run_agent script args name os
      = (Ret [("success", VBool false);
              ("error", VStr "Agent timed out after 10 minutes");
              ("stage", VStr name)], os', tr)
    /\ spawns tr = [EvSpawn (agent_cmd script args) 600].
Proof.
  intros E. exists (agent_events script args name).
  split; [|reflexivity].
  rewrite (run_agent_raised script args name os _ os' E). reflexivity.
Qed.

(** C5 (amended): [run_agent] always returns a StageResult.  When the child
    completed (exit code zero or not), the result holds the captured
    [stdout] and [stderr] verbatim and the elapsed time under [duration];
    when [subprocess.run] raised (timeout or launch failure), the result
    has none of the three keys. *)
Theorem run_agent_captures script args name (os : OS) :
  exists d tr,
    run_agent script args name os
      = (Ret d, snd (plat_run (agent_cmd script args) 600 os), tr)
    /\ match fst (plat_run (agent_cmd script args) 600 os) with
       | Ret cp =>
           dict_get d "stdout" = Some (VStr (stdout cp))
           /\ dict_get d "stderr" = Some (VStr (stderr cp))
           /\ dict_get d "duration"
              = Some (VFloat (float_sub
                                (plat_time (snd (plat_run (agent_cmd script args) 600 os)))
                                (plat_time os)))
       | Raise _ =>
           dict_get d "stdout" = None
           /\ dict_get d "stderr" = None
           /\ dict_get d "duration" = None
       end.
Proof.
  destruct (plat_run (agent_cmd script args) 600 os) as [[cp|e] os'] eqn:E.
  - rewrite (run_agent_completed script args name os cp os' E).
    do 2 eexists. split; [reflexivity|]. simpl.
    destruct (negb (returncode cp =? 0)%Z); repeat split.
  - rewrite (run_agent_raised script args name os e os' E).
    do 2 eexists. split; [reflexivity|]. simpl. repeat split.
Qed.

(** C10: [run_agent] takes no timeout argument and always passes 600 to
    [subprocess.run]: the one child it launches has timeout 600, and so
    has every child launched in a run of [run_complete_pipeline]. *)
Theorem timeout_fixed :
  (forall script args name (os : OS),
      spawns (trace_of (run_agent script args name os))
        = [EvSpawn (agent_cmd script args) 600])
  /\ (forall self cbr_path td (os : OS),
         Forall timeout_is_600 (trace_of (run_complete_pipeline self cbr_path td os))).
Proof.
  split.
  - intros script args name os.
    destruct (run_agent_total script args name os) as [r [b [E _]]].
    rewrite E. reflexivity.
  - intros self cbr_path td os. apply timeout_of_spawns.
    destruct (run_cases self cbr_path td os); unfold trace_of; simpl snd;
      match goal with H : spawns _ = _ |- _ => rewrite H end;
      repeat constructor.
Qed.

(** C7: [validate_inputs] never raises and changes nothing: it returns a
    dictionary with [valid] and [issues]; [valid] is true exactly when
    [issues] is empty; and every check is run whatever the others say: the
    issues are those of the source check, of the competitor-data check, of
    the stage-program checks and of the credential check, one per failed
    check. *)
Theorem validate_inputs_collects self cbr_path (os : OS) :
  exists b issues,
    validate_inputs self cbr_path os
      = (Ret [("valid", VBool b); ("issues", VList (map VStr issues))], os, [])
    /\ (b = true <-> issues = [])
    /\ issues = (source_issues cbr_path os ++ competitor_issues self os
                 ++ agent_issues os ++ credential_issues self)%list
    /\ List.length issues
       = ((if source_ok cbr_path os then 0 else 1)
          + (if competitor_ok self os then 0 else 1)
          + List.length (missing_agents os)
          + (if credential_ok self then 0 else 1))%nat.
Proof.
  exists (Nat.eqb (List.length (all_issues self cbr_path os)) 0),
    (all_issues self cbr_path os).
  split; [apply validate_inputs_eq|].
  split.
  { destruct (all_issues self cbr_path os); simpl; split; congruence. }
  split; [reflexivity|].
  unfold all_issues. rewrite !length_app.
  assert (Hs : List.length (source_issues cbr_path os)
               = if source_ok cbr_path os then 0%nat else 1%nat).
  { unfold source_issues, source_ok.
    destruct (plat_exists cbr_path os); cbn [negb andb]; [|reflexivity].
    destruct (PyStr.endswith_any (PyStr.lower cbr_path) [".cbr"; ".cbz"; ".zip"]);
      reflexivity. }
  assert (Hc : List.length (competitor_issues self os)
               = if competitor_ok self os then 0%nat else 1%nat).
  { unfold competitor_issues, competitor_ok.
    destruct (plat_exists (competitor_data_path self) os); cbn [negb andb]; [|reflexivity].
    destruct (PyStr.endswith (PyStr.lower (competitor_data_path self)) ".csv");
      reflexivity. }
  assert (Ha : List.length (agent_issues os) = List.length (missing_agents os)).
  { unfold agent_issues, missing_agents.
    induction required_agents as [|a l IH]; [reflexivity|].
    cbn [flat_map filter]. destruct (plat_exists a os); cbn [negb app List.length];
      [exact IH | f_equal; exact IH]. }
  assert (Hk : List.length (credential_issues self)
               = if credential_ok self then 0%nat else 1%nat).
  { unfold credential_issues, credential_ok.
    destruct (PyStr.startswith (openai_api_key self) "sk-"); reflexivity. }
  rewrite Hs, Hc, Ha, Hk. lia.
Qed.

Lemma pure_getitem (d : PyDict) k : is_pure (@getitem T OS RT d k).
Proof. unfold getitem. destruct (dict_get d k); [apply pure_ret | apply pure_raise]. Qed.

(** C9: [generate_pipeline_report] is a function of its argument alone: the
    text (or the exception) is the same in every state of the system, the
    state is left as it was and nothing is printed, launched or copied. *)
Theorem generate_pipeline_report_pure (pipeline_results : PyDict) :
  exists text : Outcome string,
    forall os : OS, generate_pipeline_report pipeline_results os = (text, os, []).
Proof.
  change (is_pure (@generate_pipeline_report T OS RT pipeline_results)).
  unfold generate_pipeline_report.
  apply pure_bind; [apply pure_lift|]. intros total.
  apply pure_bind.
  { destruct (negb (get_truthy pipeline_results "success")); [|apply pure_ret].
    destruct (dict_mem pipeline_results "error"); [|apply pure_ret].
    apply pure_bind; [apply pure_getitem | intros; apply pure_ret]. }
  intros report.
  apply pure_bind.
  { unfold items. destruct (dict_get_default pipeline_results "stages" (VDict []));
      first [apply pure_ret | apply pure_raise]. }
  intros stages.
  apply pure_bind; [|intros; apply pure_ret].
  apply pure_for_each. intros item acc.
  apply pure_bind.
  { unfold get_receiver. destruct (snd item); first [apply pure_ret | apply pure_raise]. }
  intros stage_data.
  apply pure_bind; [apply pure_lift|]. intros shown.
  destruct (negb (get_truthy stage_data "success") && dict_mem stage_data "error");
    [|apply pure_ret].
  apply pure_bind; [apply pure_getitem | intros; apply pure_ret].
Qed.

End ExecutorClaims.

(** ** The claim about [find_latest_output_file] *)

Section LocatorClaims.
Context {T OS : Type} {RT : PyRuntime T} {PF : Platform T OS}.

Lemma map_m_getmtime_all (os : OS) (mtime : string -> T) files :
  (forall f, In f files -> plat_getmtime f os = Ret (mtime f)) ->
  map_m os_path_getmtime files os = (Ret (map mtime files), os, []).
Proof.
  induction files as [|f files IH]; intros H; [reflexivity|].
  simpl. unfold bind, os_path_getmtime at 1.
  rewrite (H f (or_introl eq_refl)).
  rewrite IH; [reflexivity|]. intros g Hg. apply H. right. exact Hg.
Qed.

Lemma combine_map_key {A} (key : A -> T) (l : list A) :
  combine l (map key l) = map (fun f => (f, key f)) l.
Proof. induction l as [|a l IH]; simpl; [reflexivity | rewrite IH; reflexivity]. Qed.

Section SortHead.
Hypothesis lt_trans :
  forall a b c : T, float_lt a b = true -> float_lt b c = true -> float_lt a c = true.
Hypothesis lt_cotrans :
  forall a b c : T, float_lt a c = true -> float_lt a b = true \/ float_lt b c = true.

(** The head of the sorted list is the first of the newest elements. *)
Lemma sort_desc_head {A} (key : A -> T) (files : list A) :
  files <> [] ->
  exists before f after,
    files = (before ++ f :: after)%list
    /\ hd_error (sort_desc (map (fun f => (f, key f)) files)) = Some (f, key f)
    /\ (forall g, In g before -> float_lt (key g) (key f) = true)
    /\ (forall g, In g after -> float_lt (key f) (key g) = false).
Proof.
  induction files as [|a files IH]; intros Hne; [congruence|].
  destruct files as [|b files].
  - exists [], a, []. simpl. repeat split; intros g [].
  - destruct IH as [before [f [after [Hd [Hh [Hb Ha]]]]]]; [discriminate|].
    change (sort_desc (map (fun f => (f, key f)) (a :: b :: files)))
      with (insert_desc (a, key a) (sort_desc (map (fun f => (f, key f)) (b :: files)))).
    destruct (sort_desc (map (fun f => (f, key f)) (b :: files))) as [|h s];
      [discriminate|].
    simpl in Hh. injection Hh as ->.
    cbn [insert_desc snd].
    destruct (float_lt (key a) (key f)) eqn:Elt.
    + exists (a :: before), f, after. rewrite Hd. repeat split; auto.
      intros g [<-|Hg]; auto.
    + exists [], a, (b :: files). repeat split; [intros g []|].
      intros g Hg. rewrite Hd in Hg. apply in_app_or in Hg.
      destruct (float_lt (key a) (key g)) eqn:Eg; [|reflexivity].
      destruct Hg as [Hg|[<-|Hg]].
      * rewrite (lt_trans _ _ _ Eg (Hb g Hg)) in Elt. discriminate.
      * congruence.
      * destruct (lt_cotrans _ (key f) _ Eg) as [H|H]; [congruence|].
        rewrite (Ha g Hg) in H. discriminate.
Qed.

End SortHead.

(** C6 (amended): with [<] on timestamps a strict order and a readable
    directory, [find_latest_output_file] returns [None] when no name in the
    listing starts with the pattern and ends with [.json]; otherwise it
    returns a matching name than which no matching name is newer, and
    among the newest it is the one that comes first in the listing: every
    matching name listed before it is strictly older. *)
Theorem find_latest_first_newest pattern (os : OS) names (mtime : string -> T) :
  (forall a : T, float_lt a a = false) ->
  (forall a b c : T, float_lt a b = true -> float_lt b c = true -> float_lt a c = true) ->
  (forall a b c : T, float_lt a c = true -> float_lt a b = true \/ float_lt b c = true) ->
  plat_listdir os = Ret names ->
  (forall f, In f (filter (matches pattern) names) -> plat_getmtime f os = Ret (mtime f)) ->
  match filter (matches pattern) names with
  | [] => value_of (find_latest_output_file pattern os) = Ret None
  | _ =>
      exists before f after,
        filter (matches pattern) names = (before ++ f :: after)%list
        /\ value_of (find_latest_output_file pattern os) = Ret (Some f)
        /\ (forall g, In g (filter (matches pattern) names) ->
                      float_lt (mtime f) (mtime g) = false)
        /\ (forall g, In g before -> float_lt (mtime g) (mtime f) = true)
  end.
Proof.
  intros Hirr Htr Hco Hl Hm.
  unfold find_latest_output_file, try_except, bind, os_listdir, value_of.
  rewrite Hl.
  destruct (filter (matches pattern) names) as [|f0 files] eqn:Ef; [reflexivity|].
  rewrite (map_m_getmtime_all os mtime (f0 :: files) Hm).
  rewrite combine_map_key.
  destruct (sort_desc_head Htr Hco mtime (f0 :: files)) as [before [f [after [Hd [Hh [Hb Ha]]]]]];
    [discriminate|].
  exists before, f, after. split; [exact Hd|]. split.
  - cbn [fst snd ret].
    destruct (sort_desc (map (fun f => (f, mtime f)) (f0 :: files))) as [|h s];
      [discriminate|].
    simpl in Hh. injection Hh as ->. reflexivity.
  - split; [|exact Hb].
    intros g Hg. rewrite Hd in Hg. apply in_app_or in Hg.
    destruct Hg as [Hg|[<-|Hg]]; [|apply Hirr|apply Ha; exact Hg].
    destruct (float_lt (mtime f) (mtime g)) eqn:E; [|reflexivity].
    pose proof (Hirr (mtime f)) as Hf.
    rewrite (Htr _ _ _ E (Hb g Hg)) in Hf. discriminate.
Qed.

End LocatorClaims.

(** ** The claims about [run_complete_pipeline] *)

Section OrchestratorClaims.
Context {T OS : Type} {RT : PyRuntime T} {PF : Platform T OS}.

Local Abbreviation PyVal := (PyVal T).
Local Abbreviation PyDict := (PyDict T).

Lemma attempt_exits script args name (os os' : OS) r :
  attempt script args name os r true os' ->
  exits_zero (agent_cmd script args) os os'.
Proof. intros [_ [_ Hb]]. apply Hb. reflexivity. Qed.

Lemma attempt1_done self cbr_path td (os os1 : OS) r1 :
  inputs_valid self cbr_path os ->
  attempt1 self cbr_path td os r1 true os1 ->
  stage1_done self cbr_path td os os1.
Proof. intros Hv A1. split; [exact Hv | exact (attempt_exits _ _ _ _ _ _ A1)]. Qed.

Lemma attempt2_done self cbr_path td (os os1 os2 : OS) r1 f1 r2 :
  inputs_valid self cbr_path os ->
  attempt1 self cbr_path td os r1 true os1 ->
  located "agent_1_output_" os1 f1 ->
  attempt2 self f1 os1 r2 true os2 ->
  stage2_done self cbr_path td os f1 os2.
Proof.
  intros Hv A1 L1 A2. exists os1. split; [eapply attempt1_done; eauto|].
  split; [exact L1 | exact (attempt_exits _ _ _ _ _ _ A2)].
Qed.

Ltac first_entries :=
  let i := fresh "i" in
  let Hi := fresh "Hi" in
  let Hn := fresh "Hn" in
  intros i ? ? Hi Hn;
  repeat (destruct i as [|i]; [|try (exfalso; clear - Hi; lia)]);
  try (exfalso; clear - Hi; lia);
  cbv in Hn; injection Hn as <- <-; eauto.

Ltac prefix_case n f1 f2 Hs :=
  do 3 eexists; exists n, f1, f2;
  split; [reflexivity|];
  split; [lia|];
  split; [exact Hs|];
  split; [reflexivity|];
  split; [first_entries|].

(** C1: every run of [run_complete_pipeline] returns, and for some
    [n <= 3] the children launched are the first [n] of stage 1, stage 2,
    stage 3, in that order and once each, while [stages] holds the first
    [n] of [agent_1], [agent_2], [agent_3], in that order; every recorded
    stage but the last has [success] true; and a stage is launched only
    when its predecessor exited with code 0 and the predecessor's artifact
    was located (it is the argument handed to the stage). *)
Theorem attempted_stages_prefix self cbr_path td (os : OS) :
  exists d os' tr n f1 f2,
    run_complete_pipeline self cbr_path td os = (Ret d, os', tr)
    /\ n <= 3
    /\ spawns tr = firstn n [spawn1 self cbr_path td; spawn2 self f1; spawn3 self f2 td]
    /\ dict_keys (stage_results d) = firstn n stage_keys
    /\ (forall i k v,
           S i < n -> nth_error (stage_results d) i = Some (k, v) ->
           exists r, v = VDict r /\ dict_get r "success" = Some (VBool true))
    /\ (1 <= n -> inputs_valid self cbr_path os)
    /\ (2 <= n ->
        exists os1, stage1_done self cbr_path td os os1
                    /\ located "agent_1_output_" os1 f1)
    /\ (3 <= n ->
        exists os2, stage2_done self cbr_path td os f1 os2
                    /\ located "agent_2_output_" os2 f2).
Proof.
  destruct (run_cases self cbr_path td os)
    as [ tr Hi Hs
       | r1 os1 tr Hv A1 Hs
       | r1 os1 tr Hv A1 M1 Hs
       | r1 os1 f1 r2 os2 tr Hv A1 L1 A2 Hs
       | r1 os1 f1 r2 os2 tr Hv A1 L1 A2 M2 Hs
       | r1 os1 f1 r2 os2 f2 r3 os3 tr Hv A1 L1 A2 L2 A3 Hs
       | r1 os1 f1 r2 os2 f2 r3 os3 tr Hv A1 L1 A2 L2 A3 M3 Hs
       | r1 os1 f1 r2 os2 f2 r3 os3 f3 os4 tr Hv A1 L1 A2 L2 A3 L3 Hs ].
  - prefix_case 0 "" "" Hs. repeat split; intros; lia.
  - prefix_case 1 "" "" Hs. split; [auto|]. split; intros; lia.
  - prefix_case 1 "" "" Hs. split; [auto|]. split; intros; lia.
  - pose proof (proj1 (proj2 A1)) as S1.
    prefix_case 2 f1 "" Hs. split; [auto|]. split; [|intros; lia].
    intros _. exists os1. split; [eapply attempt1_done; eauto | exact L1].
  - pose proof (proj1 (proj2 A1)) as S1.
    prefix_case 2 f1 "" Hs. split; [auto|]. split; [|intros; lia].
    intros _. exists os1. split; [eapply attempt1_done; eauto | exact L1].
  - pose proof (proj1 (proj2 A1)) as S1. pose proof (proj1 (proj2 A2)) as S2.
    prefix_case 3 f1 f2 Hs. split; [auto|]. split.
    + intros _. exists os1. split; [eapply attempt1_done; eauto | exact L1].
    + intros _. exists os2. split; [eapply attempt2_done; eauto | exact L2].
  - pose proof (proj1 (proj2 A1)) as S1. pose proof (proj1 (proj2 A2)) as S2.
    prefix_case 3 f1 f2 Hs. split; [auto|]. split.
    + intros _. exists os1. split; [eapply attempt1_done; eauto | exact L1].
    + intros _. exists os2. split; [eapply attempt2_done; eauto | exact L2].
  - pose proof (proj1 (proj2 A1)) as S1. pose proof (proj1 (proj2 A2)) as S2.
    prefix_case 3 f1 f2 Hs. split; [auto|]. split.
    + intros _. exists os1. split; [eapply attempt1_done; eauto | exact L1].
    + intros _. exists os2. split; [eapply attempt2_done; eauto | exact L2].
Qed.

Ltac dict_red_in H :=
  cbv beta iota delta
    [stage_results results_invalid results_failed results_missing results_succeeded
     results_base app dict_get dict_mem dict_keys String.eqb Ascii.eqb Bool.eqb andb] in H.

(** No recorded stage has failed, when each recorded StageResult has
    [success] true. *)
Ltac no_failed_entry :=
  let H := fresh "H" in
  intros [? [? [H ?]]]; dict_red_in H; simpl In in H;
  repeat (destruct H as [H|H]; [injection H as <- <-; congruence|]);
  contradiction.

(** C2 (amended): in the result of a run, [failed_at] is present exactly
    when a recorded StageResult has [success] false.  It then names that
    stage, which is the last one recorded and the last one launched, and
    the run's [success] is false.  A run that failed without [failed_at]
    (rejected inputs, or an artifact not found) carries an [error]
    instead. *)
Theorem failed_at_names_failed_stage self cbr_path td (os : OS) :
  exists d os' tr,
    run_complete_pipeline self cbr_path td os = (Ret d, os', tr)
    /\ (dict_mem d "failed_at" = true <->
        exists k r, In (k, VDict r) (stage_results d)
                    /\ dict_get r "success" = Some (VBool false))
    /\ (dict_mem d "failed_at" = true ->
        dict_get d "success" = Some (VBool false)
        /\ exists n r,
            n < 3
            /\ dict_get d "failed_at" = Some (VStr (nth n failed_labels ""))
            /\ dict_keys (stage_results d) = firstn (S n) stage_keys
            /\ nth_error (stage_results d) n = Some (nth n stage_keys "", VDict r)
            /\ dict_get r "success" = Some (VBool false)
            /\ List.length (spawns tr) = S n)
    /\ (dict_get d "success" = Some (VBool false) ->
        dict_mem d "failed_at" = false ->
        dict_mem d "error" = true).
Proof.
  destruct (run_cases self cbr_path td os)
    as [ tr Hi Hs
       | r1 os1 tr Hv A1 Hs
       | r1 os1 tr Hv A1 M1 Hs
       | r1 os1 f1 r2 os2 tr Hv A1 L1 A2 Hs
       | r1 os1 f1 r2 os2 tr Hv A1 L1 A2 M2 Hs
       | r1 os1 f1 r2 os2 f2 r3 os3 tr Hv A1 L1 A2 L2 A3 Hs
       | r1 os1 f1 r2 os2 f2 r3 os3 tr Hv A1 L1 A2 L2 A3 M3 Hs
       | r1 os1 f1 r2 os2 f2 r3 os3 f3 os4 tr Hv A1 L1 A2 L2 A3 L3 Hs ];
    try pose proof (proj1 (proj2 A1)) as S1;
    try pose proof (proj1 (proj2 A2)) as S2;
    try pose proof (proj1 (proj2 A3)) as S3;
    do 3 eexists; (split; [reflexivity|]).
  - (* rejected inputs *)
    split; [split; [intros H; dict_red_in H; discriminate | no_failed_entry]|].
    split; [intros H; dict_red_in H; discriminate | reflexivity].
  - (* stage 1 failed *)
    split; [split; [intros _; exists "agent_1", r1; split; [left; reflexivity | exact S1]
                   | reflexivity]|].
    split; [|intros _ H; dict_red_in H; discriminate].
    intros _. split; [reflexivity|]. exists 0, r1. rewrite Hs.
    repeat split; auto.
  - (* stage 1 left no artifact *)
    split; [split; [intros H; dict_red_in H; discriminate | no_failed_entry]|].
    split; [intros H; dict_red_in H; discriminate | reflexivity].
  - (* stage 2 failed *)
    split; [split; [intros _; exists "agent_2", r2;
                    split; [right; left; reflexivity | exact S2]
                   | reflexivity]|].
    split; [|intros _ H; dict_red_in H; discriminate].
    intros _. split; [reflexivity|]. exists 1, r2. rewrite Hs.
    repeat split; auto.
  - (* stage 2 left no artifact *)
    split; [split; [intros H; dict_red_in H; discriminate | no_failed_entry]|].
    split; [intros H; dict_red_in H; discriminate | reflexivity].
  - (* stage 3 failed *)
    split; [split; [intros _; exists "agent_3", r3;
                    split; [right; right; left; reflexivity | exact S3]
                   | reflexivity]|].
    split; [|intros _ H; dict_red_in H; discriminate].
    intros _. split; [reflexivity|]. exists 2, r3. rewrite Hs.
    repeat split; auto.
  - (* stage 3 left no artifact *)
    split; [split; [intros H; dict_red_in H; discriminate | no_failed_entry]|].
    split; [intros H; dict_red_in H; discriminate | reflexivity].
  - (* succeeded *)
    split; [split; [intros H; dict_red_in H; discriminate | no_failed_entry]|].
    split; [intros H; dict_red_in H; discriminate | intros H; dict_red_in H; discriminate].
Qed.

(** C3 (amended): when stage [k] exits with code 0 and the locator then
    finds no artifact of that stage, the run returns with [success] false
    and the [error] of that stage's missing output; [failed_at] is not
    set; exactly [k] children were launched and [stages] holds the first
    [k] stages: no later stage is launched. *)
Theorem missing_artifact_fails self cbr_path td (os : OS) k os' :
  stage_lost self cbr_path td os k os' ->
  exists d tr,
    run_complete_pipeline self cbr_path td os = (Ret d, os', tr)
    /\ dict_get d "success" = Some (VBool false)
    /\ dict_get d "error" = Some (VStr (nth (k - 1) missing_errors ""))
    /\ dict_get d "failed_at" = None
    /\ dict_keys (stage_results d) = firstn k stage_keys
    /\ List.length (spawns tr) = k.
Proof.
  intros H. destruct k as [|[|[|[|k]]]]; cbn [stage_lost] in H; try contradiction.
  - destruct H as [[Hv Hz1] M1].
    destruct (exits_zero_attempt _ _ "AGENT 1: Comic Processor & Script Creator"
                _ _ Hz1) as [r1 A1].
    destruct (path_missing1 _ _ _ _ _ _ Hv A1 M1) as [tr [E Hs]].
    do 2 eexists. split; [exact E|]. rewrite Hs. repeat split.
  - destruct H as [f1 [[os1 [[Hv Hz1] [L1 Hz2]]] M2]].
    destruct (exits_zero_attempt _ _ "AGENT 1: Comic Processor & Script Creator"
                _ _ Hz1) as [r1 A1].
    destruct (exits_zero_attempt _ _ "AGENT 2: Script Editor & Competitive Analyst"
                _ _ Hz2) as [r2 A2].
    destruct (path_missing2 _ _ _ _ _ _ _ _ _ Hv A1 L1 A2 M2) as [tr [E Hs]].
    do 2 eexists. split; [exact E|]. rewrite Hs. repeat split.
  - destruct H as [f1 [f2 [[os2 [[os1 [[Hv Hz1] [L1 Hz2]]] [L2 Hz3]]] M3]]].
    destruct (exits_zero_attempt _ _ "AGENT 1: Comic Processor & Script Creator"
                _ _ Hz1) as [r1 A1].
    destruct (exits_zero_attempt _ _ "AGENT 2: Script Editor & Competitive Analyst"
                _ _ Hz2) as [r2 A2].
    destruct (exits_zero_attempt _ _ "AGENT 3: Final Integration Specialist"
                _ _ Hz3) as [r3 A3].
    destruct (path_missing3 _ _ _ _ _ _ _ _ _ _ _ _ Hv A1 L1 A2 L2 A3 M3) as [tr [E Hs]].
    do 2 eexists. split; [exact E|]. rewrite Hs. repeat split.
Qed.

(** C8: when the three stages have exited with code 0 and the three
    artifacts have been located, the run returns with [success] true, the
    final artifact and the results directory, and neither [failed_at] nor
    [error], whatever [shutil.copy] does: an exception raised while
    copying is caught and does not change the result. *)
Theorem archiving_failure_not_fatal self cbr_path td (os : OS) f1 f2 os3 f3 :
  stage3_done self cbr_path td os f1 f2 os3 ->
  located "final_output_" os3 f3 ->
  exists d os4 tr,
    run_complete_pipeline self cbr_path td os = (Ret d, os4, tr)
    /\ dict_get d "success" = Some (VBool true)
    /\ dict_get d "final_output_file" = Some (VStr f3)
    /\ dict_get d "results_directory" = Some (VStr (results_dir self))
    /\ dict_mem d "failed_at" = false
    /\ dict_mem d "error" = false.
Proof.
  intros [os2 [[os1 [[Hv Hz1] [L1 Hz2]]] [L2 Hz3]]] L3.
  destruct (exits_zero_attempt _ _ "AGENT 1: Comic Processor & Script Creator"
              _ _ Hz1) as [r1 A1].
  destruct (exits_zero_attempt _ _ "AGENT 2: Script Editor & Competitive Analyst"
              _ _ Hz2) as [r2 A2].
  destruct (exits_zero_attempt _ _ "AGENT 3: Final Integration Specialist"
              _ _ Hz3) as [r3 A3].
  destruct (path_succeeded _ _ _ _ _ _ _ _ _ _ _ _ _ Hv A1 L1 A2 L2 A3 L3)
    as [os4 [tr [E Hs]]].
  do 3 eexists. split; [exact E|]. repeat split.
Qed.

End OrchestratorClaims.

(** ** Further properties of the stage executor and the artifact locator *)

Section StringFacts.

Lemma substring_all (s : string) : String.substring 0 (String.length s) s = s.
Proof. induction s as [|c s IH]; simpl; [reflexivity | rewrite IH; reflexivity]. Qed.

Lemma substring_split (s : string) :
  forall m k, (m + k)%nat = String.length s ->
  s = String.substring 0 m s ++ String.substring m k s.
Proof.
  induction s as [|c s IH]; intros m k H.
  - destruct m; destruct k; simpl in *; try discriminate; reflexivity.
  - destruct m as [|m].
    + cbn [Nat.add] in H. subst k. rewrite substring_all. reflexivity.
    + simpl in H. injection H as H. simpl. rewrite <- (IH m k H). reflexivity.
Qed.

(** [s.endswith(p)] holds exactly when [s] is some string followed by
    [p]. *)
Lemma endswith_iff (s p : string) :
  PyStr.endswith s p = true <-> exists x, s = x ++ p.
Proof.
  unfold PyStr.endswith. split.
  - destruct (Nat.leb_spec (String.length p) (String.length s)) as [Hle|Hlt];
      [|discriminate].
    intros H. apply String.eqb_eq in H.
    exists (String.substring 0 (String.length s - String.length p) s).
    set (m := (String.length s - String.length p)%nat) in *.
    set (k := String.length p) in *.
    rewrite <- H. apply substring_split. unfold m, k. lia.
  - intros [x ->].
    assert (Hlen : forall a b, String.length (a ++ b) = (String.length a + String.length b)%nat).
    { induction a as [|c a IH]; intros b; simpl; [reflexivity | rewrite IH; reflexivity]. }
    rewrite Hlen.
    destruct (Nat.leb_spec (String.length p) (String.length x + String.length p)) as [_|Hlt];
      [|lia].
    replace (String.length x + String.length p - String.length p)%nat
      with (String.length x) by lia.
    apply String.eqb_eq.
    clear Hlen. induction x as [|c x IH]; simpl.
    + apply substring_all.
    + exact IH.
Qed.

Lemma list_of_string_app (a b : string) :
  list_ascii_of_string (a ++ b) = (list_ascii_of_string a ++ list_ascii_of_string b)%list.
Proof. induction a as [|c a IH]; simpl; [reflexivity | rewrite IH; reflexivity]. Qed.

Lemma append_assoc (a b c : string) : (a ++ b) ++ c = a ++ (b ++ c).
Proof. induction a as [|x a IH]; simpl; [reflexivity | rewrite IH; reflexivity]. Qed.

(** A name that ends with [.md] does not end with [.json]. *)
Lemma md_is_not_json (x : string) : PyStr.endswith (x ++ ".md") ".json" = false.
Proof.
  destruct (PyStr.endswith (x ++ ".md") ".json") eqn:E; [|reflexivity].
  apply endswith_iff in E. destruct E as [y E].
  apply (f_equal list_ascii_of_string) in E.
  rewrite !list_of_string_app in E. simpl in E.
  change (list_ascii_of_string x ++ ["."; "m"; "d"])%list%char
    with (list_ascii_of_string x ++ ["."; "m"]%char ++ ["d"%char])%list in E.
  change (list_ascii_of_string y ++ ["."; "j"; "s"; "o"; "n"])%list%char
    with (list_ascii_of_string y ++ ["."; "j"; "s"; "o"]%char ++ ["n"%char])%list in E.
  rewrite !app_assoc in E. apply app_inj_tail in E. destruct E as [_ E]. discriminate.
Qed.

End StringFacts.

Section ExecutorExtras.
Context {T OS : Type} {RT : PyRuntime T} {PF : Platform T OS}.

Local Abbreviation PyVal := (PyVal T).
Local Abbreviation PyDict := (PyDict T).


(** X2: what [find_latest_output_file] returns is a name of the listing
    that starts with the pattern and ends with [.json]. *)
Theorem find_latest_sound pattern (os : OS) f :
  value_of (find_latest_output_file pattern os) = Ret (Some f) ->
  PyStr.startswith f pattern = true
  /\ PyStr.endswith f ".json" = true
  /\ exists names, plat_listdir os = Ret names /\ In f names.
Proof.
  intros H. destruct (find_latest_matches pattern os f H) as [Hm Hn].
  unfold matches in Hm. apply andb_prop in Hm. destruct Hm as [H1 H2].
  repeat split; assumption.
Qed.

Lemma map_m_getmtime_fails (os : OS) files f :
  In f files ->
  (exists e, plat_getmtime f os = Raise e) ->
  exists e, map_m os_path_getmtime files os = (Raise e, os, []).
Proof.
  induction files as [|g files IH]; intros Hin He; [contradiction|].
  simpl. unfold bind, os_path_getmtime at 1.
  destruct (plat_getmtime g os) as [t|e] eqn:Eg.
  - destruct Hin as [->|Hin].
    + destruct He as [e He]. congruence.
    + destruct (IH Hin He) as [e' IH']. rewrite IH'. exists e'. reflexivity.
  - exists e. reflexivity.
Qed.

(** X3: one matching file whose modification time cannot be read makes
    the locator return [None], with an error line, whatever the other
    matching files are. *)
Theorem find_latest_mtime_error pattern (os : OS) names f e :
  plat_listdir os = Ret names ->
  In f names ->
  matches pattern f = true ->
  plat_getmtime f os = Raise e ->
  exists e',
    find_latest_output_file pattern os
      = (Ret None, os, [EvPrint ("Error finding output file: " ++ exn_str e')]).
Proof.
  intros Hl Hin Hm He.
  assert (Hf : In f (filter (matches pattern) names)).
  { apply filter_In. split; assumption. }
  unfold find_latest_output_file, try_except, bind, os_listdir. rewrite Hl.
  destruct (filter (matches pattern) names) as [|f0 files] eqn:Ef; [contradiction|].
  destruct (map_m_getmtime_fails os (f0 :: files) f Hf (ex_intro _ e He)) as [e' He'].
  rewrite He'. exists e'. reflexivity.
Qed.

(** X4: the file stage 1 writes is named [agent_1_output_..._<time>.md];
    such a name never matches the pattern, so the locator never returns
    it. *)
Theorem agent_1_output_never_located (os : OS) basename stamp pattern :
  matches pattern (agent_1_output_file basename stamp) = false
  /\ value_of (find_latest_output_file pattern os)
     <> Ret (Some (agent_1_output_file basename stamp)).
Proof.
  assert (Hm : matches pattern (agent_1_output_file basename stamp) = false).
  { unfold matches, agent_1_output_file.
    replace ("agent_1_output_" ++ basename ++ "_" ++ PyStr.of_int stamp ++ ".md")
      with (("agent_1_output_" ++ basename ++ "_" ++ PyStr.of_int stamp) ++ ".md").
    - rewrite md_is_not_json. apply andb_false_r.
    - rewrite !append_assoc. reflexivity. }
  split; [exact Hm|].
  intros H. apply find_latest_matches in H. destruct H as [H _]. congruence.
Qed.

End ExecutorExtras.

(** ** Further properties of the validator and the orchestrator *)

Section OrchestratorExtras.
Context {T OS : Type} {RT : PyRuntime T} {PF : Platform T OS}.

Local Abbreviation PyVal := (PyVal T).
Local Abbreviation PyDict := (PyDict T).

Lemma app_nil_both {A} (l1 l2 : list A) : (l1 ++ l2)%list = [] <-> l1 = [] /\ l2 = [].
Proof.
  split.
  - intros H. apply app_eq_nil in H. exact H.
  - intros [-> ->]. reflexivity.
Qed.

Lemma agent_issues_nil (os : OS) :
  agent_issues os = [] <-> forallb (fun agent => plat_exists agent os) required_agents = true.
Proof.
  unfold agent_issues.
  induction required_agents as [|a l IH]; [simpl; tauto|].
  cbn [flat_map forallb]. rewrite app_nil_both, andb_true_iff, IH.
  destruct (plat_exists a os); cbn [negb]; split; intros [H1 H2]; split; auto; discriminate.
Qed.

(** X5: the validator accepts the inputs exactly when the source exists
    and has one of the three archive extensions (in any letter case), the
    competitor data exists and ends with [.csv] (in any letter case), the
    three stage programs exist and the key starts with [sk-]. *)
Theorem inputs_valid_criteria self cbr_path (os : OS) :
  inputs_valid self cbr_path os <->
  source_ok cbr_path os
  && competitor_ok self os
  && forallb (fun agent => plat_exists agent os) required_agents
  && credential_ok self = true.
Proof.
  rewrite inputs_valid_iff. unfold all_issues.
  rewrite !app_nil_both, !andb_true_iff, agent_issues_nil.
  assert (Hs : source_issues cbr_path os = [] <-> source_ok cbr_path os = true).
  { unfold source_issues, source_ok.
    destruct (plat_exists cbr_path os); cbn [negb andb]; [|split; discriminate].
    destruct (PyStr.endswith_any (PyStr.lower cbr_path) [".cbr"; ".cbz"; ".zip"]);
      cbn [negb]; split; intros; try discriminate; reflexivity. }
  assert (Hc : competitor_issues self os = [] <-> competitor_ok self os = true).
  { unfold competitor_issues, competitor_ok.
    destruct (plat_exists (competitor_data_path self) os); cbn [negb andb];
      [|split; discriminate].
    destruct (PyStr.endswith (PyStr.lower (competitor_data_path self)) ".csv");
      cbn [negb]; split; intros; try discriminate; reflexivity. }
  assert (Hk : credential_issues self = [] <-> credential_ok self = true).
  { unfold credential_issues, credential_ok.
    destruct (PyStr.startswith (openai_api_key self) "sk-");
      cbn [negb]; split; intros; try discriminate; reflexivity. }
  rewrite Hs, Hc, Hk. tauto.
Qed.

Ltac step_prim :=
  first
    [ eassumption
    | apply validate_inputs_eq
    | apply getitem_run; first [ eassumption | reflexivity ]
    | reflexivity ].

Ltac step :=
  lazymatch goal with
  | |- bind _ _ _ = _ => eapply bind_run; [ step_prim | cbv beta ]
  | |- ret _ _ = _ => reflexivity
  end.

Ltac step_all :=
  repeat first
    [ step
    | match goal with H : all_issues _ _ _ = _ |- _ => rewrite H end
    | match goal with H : if_truthy _ = _ |- _ => rewrite H end
    | progress cbn [negb truthy Nat.eqb List.length if_truthy] ].

(** X6: when the validator rejects the inputs, the run prints its two
    opening lines and returns at once: the result holds the issues found,
    no child is launched and the state is left as it was. *)
Theorem rejected_inputs_launch_nothing self cbr_path td (os : OS) :
  ~ inputs_valid self cbr_path os ->
  run_complete_pipeline self cbr_path td os
    = (Ret [("success", VBool false);
            ("error", VStr "Input validation failed");
            ("issues", VList (map VStr (all_issues self cbr_path os)))],
       os,
       [EvPrint ("🚀 Starting Comic-to-YouTube Pipeline: " ++ pipeline_id self);
        EvPrint ("📁 Results will be saved to: " ++ results_dir self)])
  /\ all_issues self cbr_path os <> [].
Proof.
  intros Hv. rewrite inputs_valid_iff in Hv. split; [|exact Hv].
  destruct (all_issues self cbr_path os) as [|i0 rest] eqn:Ei; [congruence|].
  eassert (E : run_complete_pipeline self cbr_path td os = _).
  { unfold run_complete_pipeline. step_all. }
  rewrite E. reflexivity.
Qed.

(** X7: a result whose [success] is true comes from a run in which the
    three stages were launched, each exited with code 0 and each artifact
    was located; [final_output_file] is the artifact located last, and
    [total_duration] is [end_time] minus [start_time], the time at which
    the run began. *)
Theorem success_means_all_stages_done self cbr_path td (os : OS) d :
  value_of (run_complete_pipeline self cbr_path td os) = Ret d ->
  get_truthy d "success" = true ->
  exists f1 f2 f3 os3,
    stage3_done self cbr_path td os f1 f2 os3
    /\ located "final_output_" os3 f3
    /\ dict_get d "final_output_file" = Some (VStr f3)
    /\ dict_keys (stage_results d) = stage_keys
    /\ spawns (trace_of (run_complete_pipeline self cbr_path td os))
       = [spawn1 self cbr_path td; spawn2 self f1; spawn3 self f2 td]
    /\ exists finish,
        dict_get d "start_time" = Some (VFloat (plat_time os))
        /\ dict_get d "end_time" = Some (VFloat finish)
        /\ dict_get d "total_duration" = Some (VFloat (float_sub finish (plat_time os))).
Proof.
  destruct (run_cases self cbr_path td os)
    as [ tr Hi Hs
       | r1 os1 tr Hv A1 Hs
       | r1 os1 tr Hv A1 M1 Hs
       | r1 os1 f1 r2 os2 tr Hv A1 L1 A2 Hs
       | r1 os1 f1 r2 os2 tr Hv A1 L1 A2 M2 Hs
       | r1 os1 f1 r2 os2 f2 r3 os3 tr Hv A1 L1 A2 L2 A3 Hs
       | r1 os1 f1 r2 os2 f2 r3 os3 tr Hv A1 L1 A2 L2 A3 M3 Hs
       | r1 os1 f1 r2 os2 f2 r3 os3 f3 os4 tr Hv A1 L1 A2 L2 A3 L3 Hs ];
    unfold value_of, trace_of; cbn [fst snd]; intros Hd Ht;
    injection Hd as <-; try (cbv in Ht; discriminate Ht).
  exists f1, f2, f3, os3. split.
  { exists os2. split; [|split; [exact L2|]].
    - exists os1. split; [split; [exact Hv|] | split; [exact L1|]].
      + destruct A1 as [_ [_ Hb]]. apply Hb. reflexivity.
      + destruct A2 as [_ [_ Hb]]. apply Hb. reflexivity.
    - destruct A3 as [_ [_ Hb]]. apply Hb. reflexivity. }
  split; [exact L3|]. split; [reflexivity|]. split; [reflexivity|].
  split; [exact Hs|]. exists (plat_time os4). repeat split.
Qed.

Lemma not_zero_attempt script args name (os : OS) :
  (forall cp, fst (plat_run (agent_cmd script args) 600 os) = Ret cp ->
              returncode cp <> 0%Z) ->
  exists r,
    attempt script args name os r false (snd (plat_run (agent_cmd script args) 600 os))
    /\ value_of (run_agent script args name os) = Ret r.
Proof.
  intros Hn. destruct (attempt_total script args name os) as [r [b A]].
  exists r. destruct b.
  - exfalso. destruct A as [_ [_ Hb]].
    destruct (proj1 Hb eq_refl) as [cp [E Hz]].
    apply (Hn cp); [rewrite E; reflexivity | exact Hz].
  - split; [exact A|]. destruct A as [E _]. rewrite E. reflexivity.
Qed.

(** X8: when the child of stage [k] does not exit with code 0 (it exits
    with another code, times out or cannot be launched), the run stops
    there: [success] is false, [failed_at] names stage [k], there is no
    [error] entry, [stages] holds the first [k] stages, the last of them
    being what [run_agent] returned, and the last child launched is that
    of stage [k], the [k]-th. *)
Theorem stage_failure_aborts self cbr_path td (os : OS) k cmd os_k :
  stage_launch self cbr_path td os k cmd os_k ->
  (forall cp, fst (plat_run cmd 600 os_k) = Ret cp -> returncode cp <> 0%Z) ->
  exists d tr r,
    run_complete_pipeline self cbr_path td os = (Ret d, snd (plat_run cmd 600 os_k), tr)
    /\ dict_get d "success" = Some (VBool false)
    /\ dict_get d "failed_at" = Some (VStr (nth (k - 1) failed_labels ""))
    /\ dict_mem d "error" = false
    /\ dict_keys (stage_results d) = firstn k stage_keys
    /\ nth_error (stage_results d) (k - 1) = Some (nth (k - 1) stage_keys "", VDict r)
    /\ dict_get r "success" = Some (VBool false)
    /\ List.length (spawns tr) = k
    /\ last (spawns tr) (EvPrint "") = EvSpawn cmd 600.
Proof.
  intros Hl Hn.
  destruct k as [|[|[|[|k]]]]; cbn [stage_launch] in Hl; try contradiction.
  - destruct Hl as [Hv [-> ->]].
    destruct (not_zero_attempt _ _ "AGENT 1: Comic Processor & Script Creator" os Hn)
      as [r1 [A1 _]].
    destruct (path_failed1 _ _ _ _ _ _ Hv A1) as [tr [E Hs]].
    pose proof (proj1 (proj2 A1)) as S1.
    eexists. exists tr, r1. split; [exact E|]. rewrite Hs. repeat split; auto.
  - destruct Hl as [f1 [[Hv Hz1] [L1 ->]]].
    destruct (exits_zero_attempt _ _ "AGENT 1: Comic Processor & Script Creator"
                _ _ Hz1) as [r1 A1].
    destruct (not_zero_attempt _ _ "AGENT 2: Script Editor & Competitive Analyst" os_k Hn)
      as [r2 [A2 _]].
    destruct (path_failed2 _ _ _ _ _ _ _ _ _ Hv A1 L1 A2) as [tr [E Hs]].
    pose proof (proj1 (proj2 A2)) as S2.
    eexists. exists tr, r2. split; [exact E|]. rewrite Hs. repeat split; auto.
  - destruct Hl as [f1 [f2 [[os1 [[Hv Hz1] [L1 Hz2]]] [L2 ->]]]].
    destruct (exits_zero_attempt _ _ "AGENT 1: Comic Processor & Script Creator"
                _ _ Hz1) as [r1 A1].
    destruct (exits_zero_attempt _ _ "AGENT 2: Script Editor & Competitive Analyst"
                _ _ Hz2) as [r2 A2].
    destruct (not_zero_attempt _ _ "AGENT 3: Final Integration Specialist" os_k Hn)
      as [r3 [A3 _]].
    destruct (path_failed3 _ _ _ _ _ _ _ _ _ _ _ _ Hv A1 L1 A2 L2 A3) as [tr [E Hs]].
    pose proof (proj1 (proj2 A3)) as S3.
    eexists. exists tr, r3. split; [exact E|]. rewrite Hs. repeat split; auto.
Qed.

Lemma validated_of_spawns (os : OS) (tr : list Event) :
  Forall (launch_validated os) (spawns tr) -> Forall (launch_validated os) tr.
Proof.
  induction tr as [|e tr IH]; intros H; [constructor|].
  destruct e; simpl in H.
  - constructor; [exact I | auto].
  - inversion H; subst. constructor; auto.
  - constructor; [exact I | auto].
Qed.

Lemma valid_agents_exist self cbr_path (os : OS) script :
  inputs_valid self cbr_path os -> In script required_agents ->
  plat_exists script os = true.
Proof.
  intros Hv Hin. apply inputs_valid_criteria in Hv.
  rewrite !andb_true_iff in Hv. destruct Hv as [[[_ _] Ha] _].
  rewrite forallb_forall in Ha. apply Ha. exact Hin.
Qed.

(** X9: every child a run launches is the interpreter on one of the
    three stage programs, and the validator found that program present
    when the run began. *)
Theorem launches_are_validated self cbr_path td (os : OS) :
  Forall (launch_validated os) (trace_of (run_complete_pipeline self cbr_path td os)).
Proof.
  apply validated_of_spawns.
  assert (H1 : forall a, inputs_valid self cbr_path os ->
                         launch_validated os (spawn1 self cbr_path a)).
  { intros a Hv. do 2 eexists. split; [reflexivity|].
    split; [|eapply valid_agents_exist; [exact Hv|]]; simpl; auto. }
  assert (H2 : forall f, inputs_valid self cbr_path os ->
                         launch_validated os (spawn2 self f)).
  { intros f Hv. do 2 eexists. split; [reflexivity|].
    split; [|eapply valid_agents_exist; [exact Hv|]]; simpl; auto. }
  assert (H3 : forall f a, inputs_valid self cbr_path os ->
                           launch_validated os (spawn3 self f a)).
  { intros f a Hv. do 2 eexists. split; [reflexivity|].
    split; [|eapply valid_agents_exist; [exact Hv|]]; simpl; auto. }
  destruct (run_cases self cbr_path td os); unfold trace_of; cbn [snd];
    match goal with H : spawns _ = _ |- _ => rewrite H end;
    repeat constructor; auto.
Qed.

End OrchestratorExtras.

(** ** Archiving *)

Section ArchiveExtras.
Context {T OS : Type} {RT : PyRuntime T} {PF : Platform T OS}.

Local Abbreviation M := (@M OS).
Local Abbreviation PyVal := (PyVal T).
Local Abbreviation PyDict := (PyDict T).

Lemma copies_app (t1 t2 : list Event) :
  copies (t1 ++ t2) = (copies t1 ++ copies t2)%list.
Proof. unfold copies. apply filter_app. Qed.

Lemma trace_bind {A B} (m : M A) (f : A -> M B) os :
  trace_of (bind m f os)
  = match m os with
    | (Ret a, os1, t1) => (t1 ++ trace_of (f a os1))%list
    | (Raise _, _, t1) => t1
    end.
Proof.
  unfold bind, trace_of. destruct (m os) as [[[a|e] os1] t1]; [|reflexivity].
  destruct (f a os1) as [[r os2] t2]. reflexivity.
Qed.

Lemma copy_free_bind {A B} (m : M A) (f : A -> M B) :
  copy_free m -> (forall a, copy_free (f a)) -> copy_free (bind m f).
Proof.
  intros Hm Hf os. rewrite trace_bind. specialize (Hm os). unfold trace_of in Hm.
  destruct (m os) as [[[a|e] os1] t1]; simpl in Hm; [|exact Hm].
  rewrite copies_app, Hm, (Hf a os1). reflexivity.
Qed.

Lemma copy_free_ret {A} (a : A) : copy_free (OS := OS) (ret a).
Proof. intros os. reflexivity. Qed.

Lemma copy_free_print line : copy_free (OS := OS) (print line).
Proof. intros os. reflexivity. Qed.

Lemma copy_free_pure {A} (m : M A) : is_pure m -> copy_free m.
Proof. intros [r H] os. rewrite H. reflexivity. Qed.

Lemma copy_free_run_agent script args name : copy_free (run_agent script args name).
Proof.
  intros os. destruct (run_agent_total script args name os) as [r [b [E _]]].
  rewrite E. reflexivity.
Qed.

Lemma copy_free_find_latest pattern : copy_free (find_latest_output_file pattern).
Proof.
  intros os. unfold find_latest_output_file, try_except, bind, os_listdir.
  destruct (plat_listdir os) as [names|e]; [|reflexivity].
  destruct (filter (matches pattern) names) as [|f files]; [reflexivity|].
  destruct (map_m_getmtime (f :: files) os) as [r Hr]. rewrite Hr.
  destruct r as [keys|e]; reflexivity.
Qed.

Lemma copy_free_validate self cbr_path : copy_free (validate_inputs self cbr_path).
Proof. intros os. rewrite validate_inputs_eq. reflexivity. Qed.

Lemma copy_free_getitem (d : PyDict) k : copy_free (@getitem T OS RT d k).
Proof. apply copy_free_pure, pure_getitem. Qed.

Lemma copy_free_setitem_in (d : PyDict) k1 k2 v : copy_free (@setitem_in T OS RT d k1 k2 v).
Proof.
  unfold setitem_in. apply copy_free_bind; [apply copy_free_getitem|].
  intros inner. destruct inner; intros os; reflexivity.
Qed.

Lemma cos_bind {A} (m : M A) (f : A -> M PyDict) :
  copy_free m -> (forall a, copies_only_on_success (f a)) ->
  copies_only_on_success (bind m f).
Proof.
  intros Hm Hf os. rewrite trace_bind. specialize (Hm os). unfold trace_of in Hm.
  unfold value_of, bind.
  destruct (m os) as [[[a|e] os1] t1]; simpl in Hm; [|left; exact Hm].
  rewrite copies_app, Hm. cbn [app].
  destruct (Hf a os1) as [H|[d [Hd Hs]]]; [left; exact H|].
  right. exists d. split; [|exact Hs].
  unfold value_of in Hd. destruct (f a os1) as [[r os2] t2]. exact Hd.
Qed.

Lemma cos_copy_free (m : M PyDict) : copy_free m -> copies_only_on_success m.
Proof. intros H os. left. apply H. Qed.

Lemma dict_get_set_same (d : PyDict) k v : dict_get (dict_set d k v) k = Some v.
Proof.
  induction d as [|[k' v'] d IH]; simpl.
  - rewrite String.eqb_refl. reflexivity.
  - destruct (String.eqb k' k) eqn:E; simpl; rewrite E; [reflexivity | exact IH].
Qed.

Lemma dict_get_set_other (d : PyDict) k v k' :
  k <> k' -> dict_get (dict_set d k v) k' = dict_get d k'.
Proof.
  intros Hne. induction d as [|[k0 v0] d IH]; simpl.
  - destruct (String.eqb_spec k k'); [contradiction | reflexivity].
  - destruct (String.eqb_spec k0 k) as [->|Hk]; simpl.
    + destruct (String.eqb_spec k k'); [contradiction | reflexivity].
    + destruct (String.eqb k0 k'); [reflexivity | exact IH].
Qed.

Lemma success_after_update (d : PyDict) finish total f dir :
  get_truthy
    (dict_update d
       [("success", VBool true); ("end_time", VFloat finish);
        ("total_duration", VFloat total); ("final_output_file", VStr f);
        ("results_directory", VStr dir)]) "success" = true.
Proof.
  unfold get_truthy, dict_update. cbn [fold_left fst snd].
  rewrite !dict_get_set_other by discriminate.
  rewrite dict_get_set_same. reflexivity.
Qed.

Lemma run_copies_only_on_success self cbr_path td :
  copies_only_on_success (run_complete_pipeline self cbr_path td).
Proof.
  unfold run_complete_pipeline.
  apply cos_bind; [intros os; reflexivity | intros pipeline_start].
  apply cos_bind; [apply copy_free_print | intros _].
  apply cos_bind; [apply copy_free_print | intros _].
  apply cos_bind; [apply copy_free_validate | intros validation].
  apply cos_bind; [apply copy_free_getitem | intros valid].
  destruct (negb (truthy valid)).
  { apply cos_copy_free, copy_free_bind; [apply copy_free_getitem|].
    intros; apply copy_free_ret. }
  apply cos_bind; [apply copy_free_print | intros _].
  apply cos_bind; [apply copy_free_run_agent | intros r1].
  apply cos_bind; [apply copy_free_setitem_in | intros pr1].
  apply cos_bind; [apply copy_free_getitem | intros ok1].
  destruct (negb (truthy ok1)); [apply cos_copy_free, copy_free_ret|].
  apply cos_bind; [apply copy_free_find_latest | intros o1].
  destruct (if_truthy o1) as [f1|]; [|apply cos_copy_free, copy_free_ret].
  apply cos_bind; [apply copy_free_print | intros _].
  apply cos_bind; [apply copy_free_run_agent | intros r2].
  apply cos_bind; [apply copy_free_setitem_in | intros pr2].
  apply cos_bind; [apply copy_free_getitem | intros ok2].
  destruct (negb (truthy ok2)); [apply cos_copy_free, copy_free_ret|].
  apply cos_bind; [apply copy_free_find_latest | intros o2].
  destruct (if_truthy o2) as [f2|]; [|apply cos_copy_free, copy_free_ret].
  apply cos_bind; [apply copy_free_print | intros _].
  apply cos_bind; [apply copy_free_run_agent | intros r3].
  apply cos_bind; [apply copy_free_setitem_in | intros pr3].
  apply cos_bind; [apply copy_free_getitem | intros ok3].
  destruct (negb (truthy ok3)); [apply cos_copy_free, copy_free_ret|].
  apply cos_bind; [apply copy_free_find_latest | intros o3].
  destruct (if_truthy o3) as [f3|]; [|apply cos_copy_free, copy_free_ret].
  apply cos_bind; [apply copy_free_print | intros _].
  intros os. right.
  destruct (archive_total self f1 f2 f3 os) as [os' [tr [E _]]].
  eexists. split.
  - unfold value_of. erewrite bind_run; [reflexivity | exact E |].
    eapply bind_run; reflexivity.
  - apply success_after_update.
Qed.

(** X10: artifacts are archived only by a successful run: when the
    result's [success] is not true, no file was copied, not even
    tried. *)
Theorem no_archive_on_failure self cbr_path td (os : OS) d :
  value_of (run_complete_pipeline self cbr_path td os) = Ret d ->
  get_truthy d "success" = false ->
  copies (trace_of (run_complete_pipeline self cbr_path td os)) = [].
Proof.
  intros Hd Hs.
  destruct (run_copies_only_on_success self cbr_path td os) as [H|[d' [Hd' Hs']]];
    [exact H|].
  rewrite Hd in Hd'. injection Hd' as <-. congruence.
Qed.

End ArchiveExtras.

Section ArchiveAttempts.
Context {T OS : Type} {RT : PyRuntime T} {PF : Platform T OS}.

Local Abbreviation M := (@M OS).
Local Abbreviation PyVal := (PyVal T).
Local Abbreviation PyDict := (PyDict T).

(** The archiving block: it copies in order and stops at the first copy
    that raises, printing a warning. *)
Lemma archive_shape self f1 f2 f3 (os : OS) :
  exists os' ta m,
    try_except
      (bind (shutil_copy f1 (PyStr.path_join (results_dir self) "agent_1_output.json"))
         (fun _ =>
            bind (shutil_copy f2 (PyStr.path_join (results_dir self) "agent_2_output.json"))
              (fun _ =>
                 shutil_copy f3 (PyStr.path_join (results_dir self) "final_output.json"))))
      (fun e =>
         print ("Warning: Could not copy results to results directory: " ++ exn_str e)) os
    = (Ret tt, os', ta)
    /\ spawns ta = []
    /\ 1 <= m <= 3
    /\ copies ta = firstn m (archive_copies self f1 f2 f3)
    /\ (forall e os1,
           plat_copy f1 (PyStr.path_join (results_dir self) "agent_1_output.json") os
             = (Raise e, os1) ->
           m = 1 /\ os' = os1
           /\ In (EvPrint ("Warning: Could not copy results to results directory: "
                           ++ exn_str e)) ta)
    /\ (forall os1 os2 os3,
           plat_copy f1 (PyStr.path_join (results_dir self) "agent_1_output.json") os
             = (Ret tt, os1) ->
           plat_copy f2 (PyStr.path_join (results_dir self) "agent_2_output.json") os1
             = (Ret tt, os2) ->
           plat_copy f3 (PyStr.path_join (results_dir self) "final_output.json") os2
             = (Ret tt, os3) ->
           m = 3 /\ os' = os3 /\ ta = archive_copies self f1 f2 f3).
Proof.
  unfold try_except, bind, shutil_copy, print.
  destruct (plat_copy f1 _ os) as [[[]|e1] os1] eqn:E1.
  - destruct (plat_copy f2 _ os1) as [[[]|e2] os2] eqn:E2.
    + destruct (plat_copy f3 _ os2) as [[[]|e3] os3] eqn:E3.
      * exists os3. eexists. exists 3. split; [reflexivity|].
        split; [reflexivity|]. split; [lia|]. split; [reflexivity|]. split.
        -- intros e o H. discriminate.
        -- intros a b c Ha Hb Hc. injection Ha as <-. rewrite E2 in Hb.
           injection Hb as <-. rewrite E3 in Hc. injection Hc as <-. auto.
      * exists os3. eexists. exists 3. split; [reflexivity|].
        split; [reflexivity|]. split; [lia|]. split; [reflexivity|]. split.
        -- intros e o H. discriminate.
        -- intros a b c Ha Hb Hc. injection Ha as <-. rewrite E2 in Hb.
           injection Hb as <-. rewrite E3 in Hc. discriminate.
    + exists os2. eexists. exists 2. split; [reflexivity|].
      split; [reflexivity|]. split; [lia|]. split; [reflexivity|]. split.
      * intros e o H. discriminate.
      * intros a b c Ha Hb Hc. injection Ha as <-. rewrite E2 in Hb. discriminate.
  - exists os1. eexists. exists 1. split; [reflexivity|].
    split; [reflexivity|]. split; [lia|]. split; [reflexivity|]. split.
    + intros e o H. injection H as <- <-. repeat split. right. left. reflexivity.
    + intros a b c Ha Hb Hc. discriminate.
Qed.

Ltac step2_prim :=
  first
    [ eassumption
    | apply validate_inputs_eq
    | apply getitem_run; first [ eassumption | reflexivity ]
    | reflexivity ].

Ltac step2 :=
  lazymatch goal with
  | |- bind _ _ _ = _ => eapply bind_run; [ step2_prim | cbv beta ]
  | |- ret _ _ = _ => reflexivity
  end.

Ltac step2_all :=
  repeat first
    [ step2
    | match goal with H : all_issues _ _ _ = _ |- _ => rewrite H end
    | match goal with H : if_truthy _ = _ |- _ => rewrite H end
    | progress cbn [negb truthy Nat.eqb List.length if_truthy] ].

Lemma located_quiet pattern (os : OS) f :
  pattern <> "" ->
  located pattern os f ->
  exists tr,
    find_latest_output_file pattern os = (Ret (Some f), os, tr)
    /\ copies tr = [] /\ (forall line, ~ In (EvPrint line) tr)
    /\ if_truthy (Some f) = Some f.
Proof.
  intros Hp Hl. destruct (located_run pattern os f Hp Hl) as [tr [E [_ Ht]]].
  exists tr. split; [exact E|]. split; [|split; [|exact Ht]].
  - pose proof (copy_free_find_latest pattern os) as H. rewrite E in H. exact H.
  - revert E.
    unfold find_latest_output_file, try_except, bind, os_listdir.
    destruct (plat_listdir os) as [names|e]; [|discriminate].
    destruct (filter (matches pattern) names) as [|f0 files]; [discriminate|].
    destruct (map_m_getmtime (f0 :: files) os) as [r Hr]. rewrite Hr.
    destruct r as [keys|e]; [|discriminate].
    cbn [ret app]. intros E. injection E as _ <-. intros line [].
Qed.

(** X11: a run whose three stages exited with code 0 and whose three
    artifacts were located tries the three copies in order, the artifacts
    of stage 1, stage 2 and stage 3 into the results directory under
    fixed names, and stops at the first copy that raises.  When the first
    copy raises, it is the only one tried and a warning with the
    exception's message is printed; when all three return, nothing else
    is tried. *)
Theorem archive_attempts self cbr_path td (os : OS) f1 f2 os3 f3 :
  stage3_done self cbr_path td os f1 f2 os3 ->
  located "final_output_" os3 f3 ->
  exists m,
    1 <= m <= 3
    /\ copies (trace_of (run_complete_pipeline self cbr_path td os))
       = firstn m (archive_copies self f1 f2 f3)
    /\ (forall e os',
           plat_copy f1 (PyStr.path_join (results_dir self) "agent_1_output.json") os3
             = (Raise e, os') ->
           m = 1
           /\ In (EvPrint ("Warning: Could not copy results to results directory: "
                           ++ exn_str e))
                (trace_of (run_complete_pipeline self cbr_path td os)))
    /\ (forall osa osb osc,
           plat_copy f1 (PyStr.path_join (results_dir self) "agent_1_output.json") os3
             = (Ret tt, osa) ->
           plat_copy f2 (PyStr.path_join (results_dir self) "agent_2_output.json") osa
             = (Ret tt, osb) ->
           plat_copy f3 (PyStr.path_join (results_dir self) "final_output.json") osb
             = (Ret tt, osc) ->
           m = 3).
Proof.
  intros [os2 [[os1 [[Hv Hz1] [L1 Hz2]]] [L2 Hz3]]] L3.
  destruct (exits_zero_attempt _ _ "AGENT 1: Comic Processor & Script Creator"
              _ _ Hz1) as [r1 [R1 [S1 _]]].
  destruct (exits_zero_attempt _ _ "AGENT 2: Script Editor & Competitive Analyst"
              _ _ Hz2) as [r2 [R2 [S2 _]]].
  destruct (exits_zero_attempt _ _ "AGENT 3: Final Integration Specialist"
              _ _ Hz3) as [r3 [R3 [S3 _]]].
  apply inputs_valid_iff in Hv.
  apply located_quiet in L1; [destruct L1 as [t1 [F1 [C1 [P1 I1]]]] | discriminate].
  apply located_quiet in L2; [destruct L2 as [t2 [F2 [C2 [P2 I2]]]] | discriminate].
  apply located_quiet in L3; [destruct L3 as [t3 [F3 [C3 [P3 I3]]]] | discriminate].
  destruct (archive_shape self f1 f2 f3 os3)
    as [os4 [ta [m [Ea [_ [Hm [Hc [Hfail Hall]]]]]]]].
  eassert (E : run_complete_pipeline self cbr_path td os = _).
  { unfold run_complete_pipeline. step2_all. }
  rewrite E. unfold trace_of. cbn [snd].
  exists m. split; [exact Hm|]. split.
  { repeat rewrite copies_app. rewrite C1, C2, C3, Hc.
    unfold agent_events. cbn [copies filter is_copy app]. apply List.app_nil_r. }
  split.
  - intros e os' Hf. destruct (Hfail e os' Hf) as [Hm1 [_ Hin]]. split; [exact Hm1|].
    repeat (apply in_or_app; first [left; exact Hin | right]).
  - intros osa osb osc H1 H2 H3. apply (Hall osa osb osc H1 H2 H3).
Qed.

End ArchiveAttempts.

(** ** Further properties of the report *)

Section ReportExtras.
Context {T OS : Type} {RT : PyRuntime T} {PF : Platform T OS}.

Local Abbreviation M := (@M OS).
Local Abbreviation PyVal := (PyVal T).
Local Abbreviation PyDict := (PyDict T).

(** The loop over the stages: it appends to the report, and raises at the
    first stage that is no dictionary or whose duration cannot be
    formatted. *)
Lemma report_loop (stages : list (string * PyVal)) :
  forall (acc : string) (os : OS),
  exists r,
    for_each stages acc
      (fun item report =>
         let stage_name := fst item in
         bind (get_receiver (snd item))
           (fun stage_data =>
              let status := if get_truthy stage_data "success" then "SUCCESS" else "FAILED" in
              let duration := dict_get_default stage_data "duration" (VInt 0) in
              bind (lift (py_format_2f duration))
                (fun shown =>
                   let report :=
                     report ++ "  " ++ stage_name ++ ": " ++ status ++ " (" ++ shown ++ "s)"
                     ++ PyStr.nl in
                   if negb (get_truthy stage_data "success") && dict_mem stage_data "error" then
                     bind (getitem stage_data "error")
                       (fun err => ret (report ++ "    Error: " ++ py_str err ++ PyStr.nl))
                   else ret report))) os
    = (r, os, [])
    /\ match r with
       | Ret text => forallb stage_ok stages = true /\ exists suffix, text = acc ++ suffix
       | Raise _ => forallb stage_ok stages = false
       end.
Proof.
  match goal with |- context [for_each _ _ ?b] => set (body := b) end.
  assert (Hnil : forall s : string, s ++ "" = s).
  { induction s as [|c s IHs]; simpl; [reflexivity | rewrite IHs; reflexivity]. }
  induction stages as [|[name v] stages IH]; intros acc os.
  - exists (Ret acc). split; [reflexivity|]. split; [reflexivity|].
    exists "". rewrite Hnil. reflexivity.
  - cbn [for_each forallb].
    change (stage_ok (name, v))
      with (match v with
            | VDict stage_data => format_ok (dict_get_default stage_data "duration" (VInt 0))
            | _ => false
            end).
    assert (Hbody :
      match v with
      | VDict sd =>
          match py_format_2f (dict_get_default sd "duration" (VInt 0)) with
          | Ret _ => exists line, body (name, v) acc os = (Ret (acc ++ line), os, [])
          | Raise e => body (name, v) acc os = (Raise e, os, [])
          end
      | _ => exists e, body (name, v) acc os = (Raise e, os, [])
      end).
    { unfold body. cbn [fst snd].
      destruct v as [| b | n | x | s | xs | sd]; try (eexists; reflexivity).
      destruct (py_format_2f (dict_get_default sd "duration" (VInt 0))) as [shown|e] eqn:Ef.
      - unfold bind, lift, get_receiver, ret. cbv beta iota zeta. rewrite Ef.
        cbv beta iota.
        destruct (negb (get_truthy sd "success") && dict_mem sd "error") eqn:Ec.
        + apply andb_prop in Ec. destruct Ec as [_ Ec]. unfold dict_mem in Ec.
          unfold getitem, ret, raise.
          destruct (dict_get sd "error") as [err|]; [|discriminate].
          eexists. cbn [app]. rewrite append_assoc. reflexivity.
        + eexists. reflexivity.
      - unfold bind, lift, get_receiver, ret. cbv beta iota zeta. rewrite Ef.
        reflexivity. }
    unfold bind, format_ok.
    destruct v as [| b | n | x | s | xs | sd];
      try (destruct Hbody as [e Hbody]; rewrite Hbody; eexists;
           split; [reflexivity | reflexivity]).
    destruct (py_format_2f (dict_get_default sd "duration" (VInt 0))) as [shown|e].
    + destruct Hbody as [line Hbody]. rewrite Hbody.
      destruct (IH (acc ++ line) os) as [r [Hr Hm]]. rewrite Hr.
      exists r. split; [reflexivity|]. cbn [andb].
      destruct r as [text|e]; [|exact Hm].
      destruct Hm as [Hall [suffix ->]]. split; [exact Hall|].
      exists (line ++ suffix). apply append_assoc.
    + rewrite Hbody. eexists. split; [reflexivity | reflexivity].
Qed.

(** The shape of the report: whether it returns, and how the text is put
    together. *)
Lemma report_shape (pr : PyDict) (os : OS) :
  exists r,
    generate_pipeline_report pr os = (r, os, [])
    /\ match r with
       | Ret text =>
           renderable pr = true
           /\ exists pre post,
               text = pre
                      ++ (if get_truthy pr "success" then ""
                          else "Failed At: "
                               ++ py_str (dict_get_default pr "failed_at" (VStr "Unknown"))
                               ++ PyStr.nl
                               ++ match dict_get pr "error" with
                                  | Some err => "Error: " ++ py_str err ++ PyStr.nl
                                  | None => ""
                                  end)
                      ++ PyStr.nl ++ "STAGE BREAKDOWN:" ++ PyStr.nl ++ post
       | Raise _ => renderable pr = false
       end.
Proof.
  unfold generate_pipeline_report, renderable, format_ok.
  unfold bind at 1. unfold lift at 1.
  destruct (py_format_2f (dict_get_default pr "total_duration" (VInt 0))) as [total|e];
    [|eexists; split; [reflexivity | reflexivity]].
  cbn [andb].
  set (report0 := PyStr.nl ++ PyStr.repeat "=" 80 ++ _).
  assert (Hfail : exists part,
    (if negb (get_truthy pr "success")
     then
       if dict_mem pr "error"
       then bind (getitem pr "error")
              (fun err =>
                 ret ((report0 ++ "Failed At: "
                       ++ py_str (dict_get_default pr "failed_at" (VStr "Unknown"))
                       ++ PyStr.nl) ++ "Error: " ++ py_str err ++ PyStr.nl))
       else ret (report0 ++ "Failed At: "
                 ++ py_str (dict_get_default pr "failed_at" (VStr "Unknown")) ++ PyStr.nl)
     else ret report0) os
    = (Ret (report0 ++ part), os, [])
    /\ part = (if get_truthy pr "success" then ""
               else "Failed At: "
                    ++ py_str (dict_get_default pr "failed_at" (VStr "Unknown"))
                    ++ PyStr.nl
                    ++ match dict_get pr "error" with
                       | Some err => "Error: " ++ py_str err ++ PyStr.nl
                       | None => ""
                       end)).
  { assert (Hnil : forall s : string, s ++ "" = s).
    { induction s as [|c s IHs]; simpl; [reflexivity | rewrite IHs; reflexivity]. }
    destruct (get_truthy pr "success"); cbn [negb].
    - exists "". split; [rewrite Hnil; reflexivity | reflexivity].
    - unfold dict_mem, bind, getitem.
      destruct (dict_get pr "error") as [err|]; eexists; (split; [|reflexivity]).
      + cbn [ret]. rewrite !append_assoc. reflexivity.
      + cbn [ret]. rewrite Hnil. reflexivity. }
  destruct Hfail as [part [Hfail Hpart]].
  unfold bind at 1. rewrite Hfail.
  unfold bind at 1. unfold items.
  destruct (dict_get_default pr "stages" (VDict [])) as [| b | n | x | s | xs | stages];
    try (eexists; split; [reflexivity | reflexivity]).
  cbn [ret]. unfold bind at 1.
  pose proof (report_loop stages
                ((report0 ++ part) ++ PyStr.nl ++ "STAGE BREAKDOWN:" ++ PyStr.nl) os) as HL.
  cbv zeta in HL. destruct HL as [r [Hr Hm]].
  rewrite Hr. destruct r as [text|e]; [|eexists; split; [reflexivity | exact Hm]].
  destruct Hm as [Hall [suffix ->]].
  eexists. split; [reflexivity|]. split; [exact Hall|].
  rewrite <- Hpart. clear Hpart Hfail Hr.
  destruct (get_truthy pr "success").
  - eexists report0, _. rewrite !append_assoc. reflexivity.
  - eexists report0, _. rewrite !append_assoc. reflexivity.
Qed.

(** X12: [generate_pipeline_report] returns a text exactly when
    [total_duration] can be formatted, [stages] is a dictionary and each
    stage in it is a dictionary whose [duration] can be formatted (absent
    entries counting as 0 and as the empty dictionary); otherwise it
    raises. *)
Theorem report_returns_iff_renderable (pr : PyDict) (os : OS) :
  (exists text, value_of (generate_pipeline_report pr os) = Ret text)
  <-> renderable pr = true.
Proof.
  destruct (report_shape pr os) as [r [E H]]. rewrite E. unfold value_of. cbn [fst].
  destruct r as [text|e].
  - destruct H as [H _]. split; [intros _; exact H | intros _; exists text; reflexivity].
  - split; [intros [text Ht]; discriminate | intros Hr; congruence].
Qed.

(** X13: the report of a result whose [success] is not true and that has
    no [failed_at] reads [Failed At: Unknown], followed by the [error]
    line when the result has an [error], before the stage breakdown. *)
Theorem report_unknown_failure (pr : PyDict) (os : OS) text :
  value_of (generate_pipeline_report pr os) = Ret text ->
  get_truthy pr "success" = false ->
  dict_get pr "failed_at" = None ->
  exists pre post,
    text = pre ++ "Failed At: Unknown" ++ PyStr.nl
           ++ match dict_get pr "error" with
              | Some err => "Error: " ++ py_str err ++ PyStr.nl
              | None => ""
              end
           ++ PyStr.nl ++ "STAGE BREAKDOWN:" ++ PyStr.nl ++ post.
Proof.
  intros Ht Hs Hf.
  destruct (report_shape pr os) as [r [E H]]. rewrite E in Ht. unfold value_of in Ht.
  cbn [fst] in Ht. subst r. destruct H as [_ [pre [post ->]]].
  rewrite Hs. unfold dict_get_default. rewrite Hf. cbn [py_str].
  exists pre, post. rewrite !append_assoc. reflexivity.
Qed.

Lemma stage_result_renderable script args name (os os' : OS) r tr z :
  float_of_int 0 = Some z ->
  run_agent script args name os = (Ret r, os', tr) ->
  format_ok (dict_get_default r "duration" (VInt 0)) = true.
Proof.
  intros Hz H.
  destruct (plat_run (agent_cmd script args) 600 os) as [[cp|e] os1] eqn:E.
  - rewrite (run_agent_completed script args name os cp os1 E) in H.
    injection H as <- _ _. destruct (negb (returncode cp =? 0)%Z); reflexivity.
  - rewrite (run_agent_raised script args name os e os1 E) in H.
    injection H as <- _ _. unfold format_ok, dict_get_default. cbn [dict_get String.eqb Ascii.eqb Bool.eqb andb].
    unfold py_format_2f, int_format_2f. rewrite Hz. reflexivity.
Qed.

Lemma renderable_intro (pr : PyDict) stages :
  format_ok (dict_get_default pr "total_duration" (VInt 0)) = true ->
  dict_get_default pr "stages" (VDict []) = VDict stages ->
  forallb stage_ok stages = true ->
  renderable pr = true.
Proof. intros H1 H2 H3. unfold renderable. rewrite H1, H2. exact H3. Qed.

Ltac stage_facts Hz :=
  repeat match goal with
         | H : attempt1 _ _ _ _ _ _ _ |- _ =>
             apply proj1 in H; apply (stage_result_renderable _ _ _ _ _ _ _ _ Hz) in H
         | H : attempt2 _ _ _ _ _ _ |- _ =>
             apply proj1 in H; apply (stage_result_renderable _ _ _ _ _ _ _ _ Hz) in H
         | H : attempt3 _ _ _ _ _ _ _ |- _ =>
             apply proj1 in H; apply (stage_result_renderable _ _ _ _ _ _ _ _ Hz) in H
         end.

Ltac renderable_case Hz F0 :=
  stage_facts Hz;
  eapply renderable_intro;
  [ first [ exact F0 | reflexivity ]
  | reflexivity
  | cbn [forallb stage_ok snd];
    repeat match goal with
           | H : format_ok _ = true |- _ => rewrite H; clear H
           end;
    reflexivity ].

(** X14: on whatever [run_complete_pipeline] returns the report does not
    raise (given that 0 converts to a float): every result of a run can
    be rendered. *)
Theorem run_results_renderable self cbr_path td (os os' : OS) d z :
  float_of_int 0 = Some z ->
  value_of (run_complete_pipeline self cbr_path td os) = Ret d ->
  exists text, value_of (generate_pipeline_report d os') = Ret text.
Proof.
  intros Hz Hd.
  assert (F0 : format_ok (VInt 0 : PyVal) = true).
  { unfold format_ok, py_format_2f, int_format_2f. rewrite Hz. reflexivity. }
  assert (Hr : renderable d = true).
  { destruct (run_cases self cbr_path td os)
      as [ tr Hi Hs
         | r1 os1 tr Hv A1 Hs
         | r1 os1 tr Hv A1 M1 Hs
         | r1 os1 f1 r2 os2 tr Hv A1 L1 A2 Hs
         | r1 os1 f1 r2 os2 tr Hv A1 L1 A2 M2 Hs
         | r1 os1 f1 r2 os2 f2 r3 os3 tr Hv A1 L1 A2 L2 A3 Hs
         | r1 os1 f1 r2 os2 f2 r3 os3 tr Hv A1 L1 A2 L2 A3 M3 Hs
         | r1 os1 f1 r2 os2 f2 r3 os3 f3 os4 tr Hv A1 L1 A2 L2 A3 L3 Hs ];
      unfold value_of in Hd; cbn [fst] in Hd; injection Hd as <-;
      renderable_case Hz F0. }
  destruct (report_shape d os') as [r [E H]]. rewrite E. unfold value_of. cbn [fst].
  destruct r as [text|e]; [exists text; reflexivity | congruence].
Qed.

End ReportExtras.

(** ** The stage programs under the coordinator's command lines *)

Section StageProgramExtras.
Context {T OS : Type} {RT : PyRuntime T} {PF : Platform T OS}.

(** X15: the command line [run_complete_pipeline] builds for stage 2 has
    three arguments, and [main] of [agent_2_script_editor.py] wants four:
    launched that way, the program prints its usage and exits with
    status 1 without doing anything else, whatever the artifact, the
    competitor data and the key. *)
Theorem agent_2_rejects_coordinator_arguments (body : list string -> @M OS Z)
    self agent_1_output (os : OS) :
  exists usage example,
    agent_2_main body (argv_of (cmd2 self agent_1_output)) os
      = (Ret 1%Z, os, [EvPrint usage; EvPrint example])
    /\ List.length (argv_of (cmd2 self agent_1_output)) = 4.
Proof. do 2 eexists. split; reflexivity. Qed.

(** X16: the same for stage 3: [main] of [agent_3_final_integrator.py]
    wants four arguments and the coordinator passes three. *)
Theorem agent_3_rejects_coordinator_arguments (body : list string -> @M OS Z)
    self agent_2_output td (os : OS) :
  exists usage example,
    agent_3_main body (argv_of (cmd3 self agent_2_output td)) os
      = (Ret 1%Z, os, [EvPrint usage; EvPrint example])
    /\ List.length (argv_of (cmd3 self agent_2_output td)) = 4.
Proof. do 2 eexists. split; reflexivity. Qed.

End StageProgramExtras.

(** ** The command line of the coordinator *)

Section MainExtras.
Context {T OS : Type} {RT : PyRuntime T} {PF : Platform T OS} {PX : PlatformExt T OS}.

Local Abbreviation M := (@M OS).
Local Abbreviation PyVal := (PyVal T).
Local Abbreviation PyDict := (PyDict T).

Lemma run_returns self cbr_path td (os : OS) :
  exists d os1 tr, run_complete_pipeline self cbr_path td os = (Ret d, os1, tr).
Proof. destruct (run_cases self cbr_path td os); do 3 eexists; reflexivity. Qed.

(** What [main] does once the arguments are read and the coordinator is
    built. *)
Lemma main_run argv (os : OS) td self os0 t0 :
  4 <= List.length argv ->
  (if Nat.ltb 4 (List.length argv) then str_int (nth 4 argv "") else Ret 75%Z) = Ret td ->
  init (nth 3 argv "") (nth 2 argv "") os = (Ret self, os0, t0) ->
  exists d os1 tr1 r,
    run_complete_pipeline self (nth 1 argv "") td os0 = (Ret d, os1, tr1)
    /\ generate_pipeline_report d os1 = (r, os1, [])
    /\ main argv os
       = match r with
         | Ret text =>
             match plat_write ("pipeline_report_" ++ pipeline_id self ++ ".txt") text os1 with
             | (Ret _, os2) =>
                 (Ret (if get_truthy d "success" then 0%Z else 1%Z), os2,
                  (t0 ++ tr1
                   ++ [EvPrint text;
                       EvPrint (PyStr.nl ++ "📊 Pipeline report saved to: "
                                ++ "pipeline_report_" ++ pipeline_id self ++ ".txt")])%list)
             | (Raise e, os2) =>
                 (Ret 1%Z, os2,
                  (t0 ++ tr1
                   ++ [EvPrint text;
                       EvPrint (PyStr.nl ++ "❌ Pipeline coordinator error: "
                                ++ exn_str e)])%list)
             end
         | Raise e =>
             (Ret 1%Z, os1,
              (t0 ++ tr1
               ++ [EvPrint (PyStr.nl ++ "❌ Pipeline coordinator error: " ++ exn_str e)])%list)
         end.
Proof.
  intros Hlen Htd Hinit.
  destruct (run_returns self (nth 1 argv "") td os0) as [d [os1 [tr1 Hrun]]].
  destruct (report_shape d os1) as [r [Hrep _]].
  exists d, os1, tr1, r. split; [exact Hrun|]. split; [exact Hrep|].
  unfold main.
  destruct (Nat.ltb_spec (List.length argv) 4) as [Hlt|_]; [lia|].
  unfold bind at 1.
  assert (Ht : (if Nat.ltb 4 (List.length argv)
                then lift (str_int (nth 4 argv "")) else ret 75%Z) os
               = (Ret td, os, [])).
  { destruct (Nat.ltb 4 (List.length argv)); [unfold lift; rewrite Htd|]; try reflexivity.
    injection Htd as <-. reflexivity. }
  rewrite Ht. unfold bind at 1. rewrite Hinit.
  unfold try_except, bind. rewrite Hrun, Hrep.
  destruct r as [text|e].
  - unfold print, write_file.
    destruct (plat_write _ text os1) as [[[]|e] os2]; cbn [ret app];
      repeat rewrite <- List.app_assoc; cbn [app]; rewrite ?List.app_nil_r; reflexivity.
  - unfold print. cbn [ret app].
    repeat rewrite <- List.app_assoc; cbn [app]; rewrite ?List.app_nil_r; reflexivity.
Qed.


(** X18: [main] launches no child of its own and prints the report after
    the run: the children launched are those of the run, and when the
    report is rendered it is printed and the same text is what is written
    to [pipeline_report_<pipeline_id>.txt]. *)
Theorem main_prints_and_saves_report argv (os : OS) td self os0 t0 d text :
  4 <= List.length argv ->
  (if Nat.ltb 4 (List.length argv) then str_int (nth 4 argv "") else Ret 75%Z) = Ret td ->
  init (nth 3 argv "") (nth 2 argv "") os = (Ret self, os0, t0) ->
  value_of (run_complete_pipeline self (nth 1 argv "") td os0) = Ret d ->
  value_of (generate_pipeline_report d
              (state_after (run_complete_pipeline self (nth 1 argv "") td os0)))
    = Ret text ->
  In (EvPrint text) (trace_of (main argv os))
  /\ state_after (main argv os)
     = snd (plat_write ("pipeline_report_" ++ pipeline_id self ++ ".txt") text
              (state_after (run_complete_pipeline self (nth 1 argv "") td os0)))
  /\ spawns (trace_of (main argv os))
     = (spawns t0
        ++ spawns (trace_of (run_complete_pipeline self (nth 1 argv "") td os0)))%list.
Proof.
  intros Hlen Htd Hinit Hd Ht.
  destruct (main_run argv os td self os0 t0 Hlen Htd Hinit)
    as [d' [os1 [tr1 [r [Hrun [Hrep Hmain]]]]]].
  rewrite Hrun in Hd, Ht |- *. unfold value_of, state_after, trace_of in *.
  cbn [fst snd] in *. injection Hd as <-. rewrite Hrep in Ht. cbn [fst] in Ht. subst r.
  rewrite Hmain.
  destruct (plat_write _ text os1) as [[[]|e] os2]; cbn [fst snd];
    (split; [apply in_or_app; right; apply in_or_app; right; left; reflexivity|]);
    (split; [reflexivity|]);
    rewrite !spawns_app; cbn [spawns filter is_spawn]; rewrite List.app_nil_r; reflexivity.
Qed.

(** X19: what goes wrong before the run is not caught by [main]: a
    target duration that [int] rejects, or a results directory that
    cannot be created, ends [main] with that exception, before anything
    is printed and before any child is launched; in the first case the
    state is untouched. *)
Theorem main_fails_before_the_run argv (os : OS) :
  4 <= List.length argv ->
  (forall e,
      4 < List.length argv ->
      str_int (nth 4 argv "") = Raise e ->
      main argv os = (Raise e, os, []))
  /\ (forall td stamp e os0,
         (if Nat.ltb 4 (List.length argv) then str_int (nth 4 argv "") else Ret 75%Z)
           = Ret td ->
         float_int (plat_time os) = Ret stamp ->
         plat_makedirs ("results_" ++ "pipeline_" ++ PyStr.of_int stamp) os
           = (Raise e, os0) ->
         main argv os = (Raise e, os0, [])).
Proof.
  intros Hlen. unfold main.
  destruct (Nat.ltb_spec (List.length argv) 4) as [Hlt|_]; [lia|].
  split.
  - intros e H4 He. apply Nat.ltb_lt in H4. rewrite H4.
    unfold bind at 1. unfold lift. rewrite He. reflexivity.
  - intros td stamp e os0 Htd Hstamp Hmk.
    unfold bind at 1.
    assert (Ht : (if Nat.ltb 4 (List.length argv)
                  then lift (str_int (nth 4 argv "")) else ret 75%Z) os
                 = (Ret td, os, [])).
    { destruct (Nat.ltb 4 (List.length argv)); [unfold lift; rewrite Htd|]; try reflexivity.
      injection Htd as <-. reflexivity. }
    rewrite Ht. unfold bind at 1.
    assert (Hi : init (nth 3 argv "") (nth 2 argv "") os = (Raise e, os0, [])).
    { unfold init, bind, time_time, lift, os_makedirs. rewrite Hstamp.
      cbv beta iota. rewrite Hmk. reflexivity. }
    rewrite Hi. reflexivity.
Qed.

End MainExtras.

(** ** Scenarios on the simulated platform *)

Section Scenarios.
Import Sim.

Example endswith_examples :
  PyStr.endswith "agent_1_output_comic.json" ".json" = true
  /\ PyStr.endswith "out_new.json.bak" ".json" = false
  /\ PyStr.endswith "x" ".json" = false
  /\ PyStr.endswith_any (PyStr.lower "Comic.CBZ") [".cbr"; ".cbz"; ".zip"] = true.
Proof. repeat split. Qed.

(** A missing source archive and a malformed key: both are reported. *)
Example validation_collects_example :
  value_of (validate_inputs
              {| openai_api_key := "key"; competitor_data_path := "competitors.csv";
                 pipeline_id := "pipeline_1"; results_dir := "results_pipeline_1" |}
              "missing.cbr" (ready [] true))
  = Ret [("valid", VBool false);
         ("issues", VList [VStr "CBR file not found: missing.cbr";
                           VStr "Invalid OpenAI API key format"])].
Proof. vm_compute. reflexivity. Qed.

(** The three stages succeed: three children, three recorded stages. *)
Example successful_run_example :
  exists d,
    value_of (run_complete_pipeline coordinator "comic.cbz" 75 (ready run3 true)) = Ret d
    /\ dict_get d "success" = Some (VBool true)
    /\ dict_keys (stage_results d) = ["agent_1"; "agent_2"; "agent_3"]
    /\ List.length
         (spawns (trace_of (run_complete_pipeline coordinator "comic.cbz" 75
                              (ready run3 true)))) = 3.
Proof. eexists. split; [vm_compute; reflexivity|]. repeat split. Qed.

Lemma run_agent_timeout_witness :
  exists tr,
    run_agent "agent_1_comic_processor.py" ["comic.cbz"; "sk-test"; "75"]
      "AGENT 1: Comic Processor & Script Creator" (ready [stage_hangs] true)
      = (Ret [("success", VBool false);
              ("error", VStr "Agent timed out after 10 minutes");
              ("stage", VStr "AGENT 1: Comic Processor & Script Creator")],
         step (ready [stage_hangs] true), tr)
    /\ spawns tr
       = [EvSpawn (agent_cmd "agent_1_comic_processor.py" ["comic.cbz"; "sk-test"; "75"])
            600].
Proof.
  apply (run_agent_timeout "agent_1_comic_processor.py" ["comic.cbz"; "sk-test"; "75"]
           "AGENT 1: Comic Processor & Script Creator" (ready [stage_hangs] true)
           (step (ready [stage_hangs] true)) "Command timed out after 600 seconds").
  reflexivity.
Defined.

(** On a timeout the StageResult has neither [stdout], [stderr] nor
    [duration]. *)
Lemma timeout_result_lacks_output :
  exists d,
    value_of (run_agent "agent_1_comic_processor.py" ["comic.cbz"; "sk-test"; "75"]
                "AGENT 1: Comic Processor & Script Creator" (ready [stage_hangs] true))
      = Ret d
    /\ dict_mem d "stdout" = false
    /\ dict_mem d "stderr" = false
    /\ dict_mem d "duration" = false.
Proof. eexists. split; [vm_compute; reflexivity|]. repeat split. Qed.

(** Two files with the same timestamp: the locator returns whichever the
    listing gives first, the greater name in one directory and the smaller
    name in the other. *)
Lemma ties_follow_listing_order :
  value_of (find_latest_output_file "out_" (listing tie_ba)) = Ret (Some "out_b.json")
  /\ value_of (find_latest_output_file "out_" (listing tie_ab)) = Ret (Some "out_a.json")
  /\ String.ltb "out_a.json" "out_b.json" = true.
Proof. repeat split; vm_compute; reflexivity. Qed.

Lemma find_latest_first_newest_witness :
  exists before f after,
    filter (matches "out_") (map fst outputs) = (before ++ f :: after)%list
    /\ value_of (find_latest_output_file "out_" (listing outputs)) = Ret (Some f)
    /\ (forall g, In g (filter (matches "out_") (map fst outputs)) ->
                  float_lt (mtime_in outputs f) (mtime_in outputs g) = false)
    /\ (forall g, In g before ->
                  float_lt (mtime_in outputs g) (mtime_in outputs f) = true).
Proof.
  apply (find_latest_first_newest "out_" (listing outputs) (map fst outputs)
           (mtime_in outputs)).
  - intros a. apply Z.ltb_irrefl.
  - intros a b c H1 H2. apply Z.ltb_lt. apply Z.ltb_lt in H1. apply Z.ltb_lt in H2. lia.
  - intros a b c H. apply Z.ltb_lt in H.
    destruct (Z_lt_le_dec a b) as [Hab|Hab]; [left; apply Z.ltb_lt; exact Hab|].
    right. apply Z.ltb_lt. lia.
  - reflexivity.
  - intros f [<-|[<-|[<-|[]]]]; reflexivity.
Defined.

(** Stage 2 exits with code 0 and writes nothing: the run fails and names
    no failed stage. *)
Lemma failed_run_without_failed_at :
  exists d,
    value_of (run_complete_pipeline coordinator "comic.cbz" 75
                (ready [stage1_ok; silent; stage3_ok] true)) = Ret d
    /\ dict_get d "success" = Some (VBool false)
    /\ dict_get d "failed_at" = None
    /\ dict_keys (stage_results d) = ["agent_1"; "agent_2"].
Proof. eexists. split; [vm_compute; reflexivity|]. repeat split. Qed.

(** Stage 1 exits with code 0 and writes nothing: no stage is recorded as
    the failed one. *)
Lemma lost_artifact_records_no_failed_stage :
  stage_lost coordinator "comic.cbz" 75 (ready [silent; stage2_ok; stage3_ok] true) 1
    (step (ready [silent; stage2_ok; stage3_ok] true))
  /\ exists d,
      value_of (run_complete_pipeline coordinator "comic.cbz" 75
                  (ready [silent; stage2_ok; stage3_ok] true)) = Ret d
      /\ dict_get d "success" = Some (VBool false)
      /\ dict_mem d "failed_at" = false.
Proof.
  split.
  - split; [split|].
    + eexists. split; [vm_compute; reflexivity | reflexivity].
    + eexists. split; reflexivity.
    + vm_compute. reflexivity.
  - eexists. split; [vm_compute; reflexivity|]. repeat split.
Qed.

Lemma stage1_done_sim cs copying :
  stage1_done coordinator "comic.cbz" 75 (ready (stage1_ok :: cs) copying)
    (step (ready (stage1_ok :: cs) copying)).
Proof.
  split.
  - eexists. split; [vm_compute; reflexivity | reflexivity].
  - eexists. split; reflexivity.
Defined.

Lemma stage2_done_sim c cs copying :
  exits_zero (cmd2 coordinator "agent_1_output_comic.json")
    (step (ready (stage1_ok :: c :: cs) copying))
    (step (step (ready (stage1_ok :: c :: cs) copying))) ->
  stage2_done coordinator "comic.cbz" 75 (ready (stage1_ok :: c :: cs) copying)
    "agent_1_output_comic.json" (step (step (ready (stage1_ok :: c :: cs) copying))).
Proof.
  intros Hz. exists (step (ready (stage1_ok :: c :: cs) copying)).
  split; [apply stage1_done_sim|]. split; [vm_compute; reflexivity | exact Hz].
Defined.

Lemma missing_artifact_fails_witness :
  stage_lost coordinator "comic.cbz" 75 (ready [stage1_ok; silent; stage3_ok] true) 2
    (step (step (ready [stage1_ok; silent; stage3_ok] true)))
  /\ exists d tr,
      run_complete_pipeline coordinator "comic.cbz" 75
        (ready [stage1_ok; silent; stage3_ok] true)
        = (Ret d, step (step (ready [stage1_ok; silent; stage3_ok] true)), tr)
      /\ dict_get d "success" = Some (VBool false)
      /\ dict_get d "error" = Some (VStr "Could not find Agent 2 output file")
      /\ dict_get d "failed_at" = None
      /\ dict_keys (stage_results d) = ["agent_1"; "agent_2"]
      /\ List.length (spawns tr) = 2.
Proof.
  assert (H : stage_lost coordinator "comic.cbz" 75
                (ready [stage1_ok; silent; stage3_ok] true) 2
                (step (step (ready [stage1_ok; silent; stage3_ok] true)))).
  { exists "agent_1_output_comic.json". split.
    - apply stage2_done_sim. eexists. split; reflexivity.
    - vm_compute. reflexivity. }
  split; [exact H|].
  exact (missing_artifact_fails coordinator "comic.cbz" 75 _ 2 _ H).
Defined.

Lemma archiving_failure_not_fatal_witness :
  fst (plat_copy "agent_1_output_comic.json"
         "results_pipeline_1700000000/agent_1_output.json"
         (step (step (step (ready run3 false)))))
    = Raise (PyError "PermissionError"
               "Permission denied: results_pipeline_1700000000/agent_1_output.json")
  /\ exists d os4 tr,
      run_complete_pipeline coordinator "comic.cbz" 75 (ready run3 false)
        = (Ret d, os4, tr)
      /\ dict_get d "success" = Some (VBool true)
      /\ dict_get d "final_output_file" = Some (VStr "final_output_comic.json")
      /\ dict_get d "results_directory" = Some (VStr "results_pipeline_1700000000")
      /\ dict_mem d "failed_at" = false
      /\ dict_mem d "error" = false.
Proof.
  split; [reflexivity|].
  apply (archiving_failure_not_fatal coordinator "comic.cbz" 75 (ready run3 false)
           "agent_1_output_comic.json" "agent_2_output_comic.json"
           (step (step (step (ready run3 false)))) "final_output_comic.json").
  - exists (step (step (ready run3 false))). split; [|split].
    + apply stage2_done_sim. eexists. split; reflexivity.
    + vm_compute. reflexivity.
    + eexists. split; reflexivity.
  - vm_compute. reflexivity.
Defined.

End Scenarios.

(** ** Further scenarios on the simulated platform *)

Section MoreScenarios.
Import Sim SimExt.

Lemma find_latest_sound_witness :
  PyStr.startswith "out_new.json" "out_" = true
  /\ PyStr.endswith "out_new.json" ".json" = true
  /\ exists names, plat_listdir (listing outputs) = Ret names /\ In "out_new.json" names.
Proof.
  apply (find_latest_sound "out_" (listing outputs) "out_new.json").
  vm_compute. reflexivity.
Defined.

Lemma find_latest_mtime_error_witness :
  exists e',
    @find_latest_output_file Z State runtime unreadable "out_" (listing locked)
      = (Ret None, listing locked,
         [EvPrint ("Error finding output file: " ++ exn_str e')]).
Proof.
  apply (@find_latest_mtime_error Z State runtime unreadable "out_" (listing locked)
           (map fst locked) "out_locked.json"
           (PyError "PermissionError" "Permission denied: out_locked.json")).
  - reflexivity.
  - right. left. reflexivity.
  - reflexivity.
  - reflexivity.
Defined.

Lemma rejected_inputs_launch_nothing_witness :
  run_complete_pipeline coordinator "missing.cbr" 75 (ready run3 true)
    = (Ret [("success", VBool false);
            ("error", VStr "Input validation failed");
            ("issues", VList (map VStr (all_issues coordinator "missing.cbr"
                                          (ready run3 true))))],
       ready run3 true,
       [EvPrint ("🚀 Starting Comic-to-YouTube Pipeline: " ++ pipeline_id coordinator);
        EvPrint ("📁 Results will be saved to: " ++ results_dir coordinator)])
  /\ all_issues coordinator "missing.cbr" (ready run3 true) <> [].
Proof.
  apply (rejected_inputs_launch_nothing coordinator "missing.cbr" 75 (ready run3 true)).
  intros [v [Hv Hg]]. vm_compute in Hv. injection Hv as <-. discriminate Hg.
Defined.

Lemma success_means_all_stages_done_witness :
  exists f1 f2 f3 os3,
    stage3_done coordinator "comic.cbz" 75 (ready run3 true) f1 f2 os3
    /\ located "final_output_" os3 f3
    /\ dict_get (result_of (run_complete_pipeline coordinator "comic.cbz" 75
                              (ready run3 true)) []) "final_output_file"
       = Some (VStr f3)
    /\ dict_keys (stage_results
                    (result_of (run_complete_pipeline coordinator "comic.cbz" 75
                                  (ready run3 true)) []))
       = stage_keys
    /\ spawns (trace_of (run_complete_pipeline coordinator "comic.cbz" 75 (ready run3 true)))
       = [spawn1 coordinator "comic.cbz" 75; spawn2 coordinator f1;
          spawn3 coordinator f2 75]
    /\ exists finish,
        dict_get (result_of (run_complete_pipeline coordinator "comic.cbz" 75
                               (ready run3 true)) []) "start_time"
        = Some (VFloat (plat_time (ready run3 true)))
        /\ dict_get (result_of (run_complete_pipeline coordinator "comic.cbz" 75
                                  (ready run3 true)) []) "end_time"
           = Some (VFloat finish)
        /\ dict_get (result_of (run_complete_pipeline coordinator "comic.cbz" 75
                                  (ready run3 true)) []) "total_duration"
           = Some (VFloat (float_sub finish (plat_time (ready run3 true)))).
Proof.
  apply (success_means_all_stages_done coordinator "comic.cbz" 75 (ready run3 true)).
  - vm_compute. reflexivity.
  - vm_compute. reflexivity.
Defined.

Lemma stage_failure_aborts_witness :
  exists d tr r,
    run_complete_pipeline coordinator "comic.cbz" 75 crash2
      = (Ret d, snd (plat_run (cmd2 coordinator "agent_1_output_comic.json") 600
                       (step crash2)), tr)
    /\ dict_get d "success" = Some (VBool false)
    /\ dict_get d "failed_at" = Some (VStr "Agent 2")
    /\ dict_mem d "error" = false
    /\ dict_keys (stage_results d) = ["agent_1"; "agent_2"]
    /\ nth_error (stage_results d) 1 = Some ("agent_2", VDict r)
    /\ dict_get r "success" = Some (VBool false)
    /\ List.length (spawns tr) = 2
    /\ last (spawns tr) (EvPrint "")
       = EvSpawn (cmd2 coordinator "agent_1_output_comic.json") 600.
Proof.
  apply (stage_failure_aborts coordinator "comic.cbz" 75 crash2 2
           (cmd2 coordinator "agent_1_output_comic.json") (step crash2)).
  - exists "agent_1_output_comic.json". split; [apply stage1_done_sim|].
    split; [vm_compute; reflexivity | reflexivity].
  - intros cp H. vm_compute in H. injection H as <-. discriminate.
Defined.

Lemma no_archive_on_failure_witness :
  copies (trace_of (run_complete_pipeline coordinator "comic.cbz" 75 crash2)) = [].
Proof.
  apply (no_archive_on_failure coordinator "comic.cbz" 75 crash2
           (result_of (run_complete_pipeline coordinator "comic.cbz" 75 crash2) [])).
  - vm_compute. reflexivity.
  - vm_compute. reflexivity.
Defined.

Lemma stage3_done_sim copying :
  stage3_done coordinator "comic.cbz" 75 (ready run3 copying)
    "agent_1_output_comic.json" "agent_2_output_comic.json"
    (step (step (step (ready run3 copying)))).
Proof.
  exists (step (step (ready run3 copying))). split; [|split].
  - apply stage2_done_sim. eexists. split; reflexivity.
  - vm_compute. reflexivity.
  - eexists. split; reflexivity.
Defined.

Lemma archive_attempts_witness :
  exists m,
    1 <= m <= 3
    /\ copies (trace_of (run_complete_pipeline coordinator "comic.cbz" 75 (ready run3 false)))
       = firstn m (archive_copies coordinator "agent_1_output_comic.json"
                     "agent_2_output_comic.json" "final_output_comic.json")
    /\ (forall e os',
           plat_copy "agent_1_output_comic.json"
             (PyStr.path_join (results_dir coordinator) "agent_1_output.json")
             (step (step (step (ready run3 false))))
             = (Raise e, os') ->
           m = 1
           /\ In (EvPrint ("Warning: Could not copy results to results directory: "
                           ++ exn_str e))
                (trace_of (run_complete_pipeline coordinator "comic.cbz" 75
                             (ready run3 false))))
    /\ (forall osa osb osc,
           plat_copy "agent_1_output_comic.json"
             (PyStr.path_join (results_dir coordinator) "agent_1_output.json")
             (step (step (step (ready run3 false))))
             = (Ret tt, osa) ->
           plat_copy "agent_2_output_comic.json"
             (PyStr.path_join (results_dir coordinator) "agent_2_output.json") osa
             = (Ret tt, osb) ->
           plat_copy "final_output_comic.json"
             (PyStr.path_join (results_dir coordinator) "final_output.json") osb
             = (Ret tt, osc) ->
           m = 3).
Proof.
  apply (archive_attempts coordinator "comic.cbz" 75 (ready run3 false)
           "agent_1_output_comic.json" "agent_2_output_comic.json"
           (step (step (step (ready run3 false)))) "final_output_comic.json").
  - apply stage3_done_sim.
  - vm_compute. reflexivity.
Defined.

Lemma run_results_renderable_witness :
  exists text,
    value_of (generate_pipeline_report
                (result_of (run_complete_pipeline coordinator "comic.cbz" 75 lost2) [])
                lost2)
    = Ret text.
Proof.
  apply (run_results_renderable coordinator "comic.cbz" 75 lost2 lost2
           (result_of (run_complete_pipeline coordinator "comic.cbz" 75 lost2) []) 0%Z).
  - reflexivity.
  - vm_compute. reflexivity.
Defined.

Lemma report_unknown_failure_witness :
  exists pre post,
    result_of (generate_pipeline_report
                 (result_of (run_complete_pipeline coordinator "comic.cbz" 75 lost2) [])
                 lost2) ""
    = pre ++ "Failed At: Unknown" ++ PyStr.nl
      ++ match dict_get
                 (result_of (run_complete_pipeline coordinator "comic.cbz" 75 lost2) [])
                 "error" with
         | Some err => "Error: " ++ py_str err ++ PyStr.nl
         | None => ""
         end
      ++ PyStr.nl ++ "STAGE BREAKDOWN:" ++ PyStr.nl ++ post.
Proof.
  apply (report_unknown_failure
           (result_of (run_complete_pipeline coordinator "comic.cbz" 75 lost2) [])
           lost2
           (result_of (generate_pipeline_report
                         (result_of (run_complete_pipeline coordinator "comic.cbz" 75 lost2) [])
                         lost2) "")).
  - vm_compute. reflexivity.
  - vm_compute. reflexivity.
  - vm_compute. reflexivity.
Defined.


Lemma main_prints_and_saves_report_witness :
  In (EvPrint (result_of
                 (generate_pipeline_report
                    (result_of (run_complete_pipeline coordinator "comic.cbz" 75
                                  (built (ready run3 true))) [])
                    (state_after (run_complete_pipeline coordinator "comic.cbz" 75
                                    (built (ready run3 true))))) ""))
     (trace_of (main argv4 (ready run3 true)))
  /\ state_after (main argv4 (ready run3 true))
     = snd (plat_write ("pipeline_report_" ++ pipeline_id coordinator ++ ".txt")
              (result_of
                 (generate_pipeline_report
                    (result_of (run_complete_pipeline coordinator "comic.cbz" 75
                                  (built (ready run3 true))) [])
                    (state_after (run_complete_pipeline coordinator "comic.cbz" 75
                                    (built (ready run3 true))))) "")
              (state_after (run_complete_pipeline coordinator "comic.cbz" 75
                              (built (ready run3 true)))))
  /\ spawns (trace_of (main argv4 (ready run3 true)))
     = (spawns []
        ++ spawns (trace_of (run_complete_pipeline coordinator "comic.cbz" 75
                               (built (ready run3 true)))))%list.
Proof.
  apply (main_prints_and_saves_report argv4 (ready run3 true) 75 coordinator
           (built (ready run3 true)) []
           (result_of (run_complete_pipeline coordinator "comic.cbz" 75
                         (built (ready run3 true))) [])).
  - simpl. lia.
  - reflexivity.
  - vm_compute. reflexivity.
  - vm_compute. reflexivity.
  - vm_compute. reflexivity.
Defined.

Lemma main_fails_before_the_run_witness :
  main (argv4 ++ ["soon"]) (ready run3 true)
  = (Raise (PyError "ValueError" "invalid literal for int()"), ready run3 true, []).
Proof.
  assert (H : 4 <= List.length (argv4 ++ ["soon"])) by (simpl; lia).
  apply (proj1 (main_fails_before_the_run (argv4 ++ ["soon"]) (ready run3 true) H)).
  - simpl. lia.
  - reflexivity.
Defined.

End MoreScenarios.
